(** * NasaServer: the statistics store, the rule-based scorer and the
  request handlers of [production-server.js]

  The source file holds two revisions of the server.  They share
  [modelStats], [loadStats], [saveStats], [GET /tap/sync] and
  [GET /api/stats]; the first revision has [POST /predict] (the rule-based
  scorer), the second has [POST /ai/predict] (the forwarding route).  Both
  prediction routes are embedded here over the same statistics record, which
  is also what the persisted [model_stats.json] gives: a file written by one
  revision is read by the other.

  Conventions of the embedding.
  - A JavaScript number is an IEEE-754 binary64 value: Rocq's primitive
    [float].  The integer counters of the record are kept in [N]; a
    binary64 value represents them exactly below 2^53.
  - A JSON value is a tree [json]; [undefined] is [None] of [option json].
  - The clock, the disk and the two upstream services are inputs of a
    request: the timestamp a handler reads, whether [fs.writeFile]
    succeeds, and what the upstream answers.
  - One request is handled at a time; the interleaving of two requests at
    an [await] is not modelled.

  The inputs covered.
  - [req.query.query] and [req.query.format] are absent, a string, or an
    array or object (a repeated or bracketed parameter).
  - [req.body] is the JSON value the body parser left.
  - The answer of the prediction service, when it is ok, is any JSON value.
  - [model_stats.json], when it parses, is an object whose properties, as
    far as they are there, have the types [saveStats] writes them with. *)

From Stdlib Require Import ZArith NArith Floats Uint63 Ascii.
From stdpp Require Import base option list strings pretty.

Set Warnings "-inexact-float,-register-all".
Set Default Proof Using "Type".

Local Open Scope string_scope.
Local Open Scope list_scope.

(* ===================================================================== *)
(** ** JavaScript values and the built-ins the server calls *)
(* ===================================================================== *)
Module Js.

(** A parsed JSON document.  An object keeps its properties in insertion
    order; [JSON.parse] leaves each key once. *)
Inductive json : Type :=
| JNull
| JBool (b : bool)
| JNum (x : float)
| JStr (s : string)
| JArr (items : list json)
| JObj (props : list (string * json)).

(** [o[k]] on an object literal: the first binding of [k]. *)
Fixpoint assoc (k : string) (props : list (string * json)) : option json :=
  match props with
  | [] => None
  | (k', v) :: rest => if String.eqb k k' then Some v else assoc k rest
  end.

(** [v.k] for a value that is not [null]: only objects carry the
    properties read by the server ([features]). *)
Definition get (v : json) (k : string) : option json :=
  match v with
  | JObj props => assoc k props
  | _ => None
  end.

(** The conversions of the language that go through the text of a value,
    taken as they come: ToNumber of a string, an array or an object
    ([ToNumberText], [None] for the [TypeError] of ToPrimitive), ToPrimitive
    of an array or an object, which is a string ([ToStringText], [None]
    for the [TypeError] thrown when the value has no callable [toString]
    and [valueOf]), the digits of a number ([NumberToString]), and the
    message of the [TypeError] thrown while a value is used
    ([TypeErrorMessage]). *)
Record Builtins := {
  ToNumberText : json -> option float;
  ToStringText : json -> option string;
  NumberToString : float -> string;
  TypeErrorMessage : json -> string
}.

(** ToString of ToPrimitive of a value. *)
Definition ToString (js : Builtins) (v : json) : option string :=
  match v with
  | JNull => Some "null"
  | JBool b => Some (if b then "true" else "false")
  | JNum x => Some (NumberToString js x)
  | JStr s => Some s
  | _ => ToStringText js v
  end.

(** ToBoolean. *)
Definition truthy (v : option json) : bool :=
  match v with
  | None => false
  | Some JNull => false
  | Some (JBool b) => b
  | Some (JNum x) => negb (PrimFloat.is_nan x || PrimFloat.is_zero x)
  | Some (JStr s) => negb (String.eqb s "")
  | Some (JArr _) => true
  | Some (JObj _) => true
  end.

(** [Array.isArray]. *)
Definition isArray (v : option json) : bool :=
  match v with
  | Some (JArr _) => true
  | _ => false
  end.

(** [Math.min] of two numbers. *)
Definition Math_min (a b : float) : float :=
  if PrimFloat.is_nan a || PrimFloat.is_nan b then PrimFloat.nan
  else if PrimFloat.ltb a b then a
  else if PrimFloat.ltb b a then b
  else if PrimFloat.get_sign a then a else b.

(** [Math.round]: the integer nearest to [x], a tie going up.  A finite
    [x] is [(-1)^s * m * 2^e]; with [e >= 0] it is an integer already,
    otherwise the result is [floor (x + 1/2)] computed exactly in [Z]
    (it is below 2^53 in magnitude, so the conversion back is exact).
    A result of zero keeps the sign of [x]. *)
Definition Math_round (x : float) : float :=
  match Prim2SF x with
  | S754_finite s m e =>
      if (0 <=? e)%Z then x
      else
        let k := (- e)%Z in
        let n := if s then Z.neg m else Z.pos m in
        let r := ((2 * n + 2 ^ k) / 2 ^ (k + 1))%Z in
        if (r =? 0)%Z then (if s then PrimFloat.neg_zero else PrimFloat.zero)
        else if (r <? 0)%Z
             then PrimFloat.opp (PrimFloat.of_uint63 (Uint63.of_Z (- r)))
             else PrimFloat.of_uint63 (Uint63.of_Z r)
  | _ => x
  end.

(** [Array.prototype.join] on strings. *)
Fixpoint join (sep : string) (parts : list string) : string :=
  match parts with
  | [] => ""
  | [p] => p
  | p :: rest => p +:+ sep +:+ join sep rest
  end.

(** [s.split('T')[0]]: the text before the first ['T']. *)
Fixpoint before_T (s : string) : string :=
  match s with
  | EmptyString => EmptyString
  | String c rest =>
      if Ascii.eqb c "T"%char then EmptyString else String c (before_T rest)
  end.

(** What [JSON.stringify] writes for a number, read back by [JSON.parse]:
    [NaN] and the infinities are written [null], either zero is written
    [0], every other number is written with digits that read back as the
    same binary64 value. *)
Definition wire_number (x : float) : json :=
  match PrimFloat.classify x with
  | NaN | PInf | NInf => JNull
  | PZero | NZero => JNum PrimFloat.zero
  | _ => JNum x
  end.

(** [JSON.parse (JSON.stringify v)] on a JSON value. *)
Fixpoint wire (v : json) : json :=
  match v with
  | JNull => JNull
  | JBool b => JBool b
  | JNum x => wire_number x
  | JStr s => JStr s
  | JArr items => JArr (List.map wire items)
  | JObj props => JObj (List.map (fun kv => (fst kv, wire (snd kv))) props)
  end.

(** The numbers [JSON.stringify] writes as they are: finite, and not the
    negative zero. *)
Definition exact_number (x : float) : bool :=
  match PrimFloat.classify x with
  | NaN | PInf | NInf | NZero => false
  | _ => true
  end.

(** A JSON value all of whose numbers are written as they are. *)
Fixpoint exact (v : json) : bool :=
  match v with
  | JNum x => exact_number x
  | JArr items => forallb exact items
  | JObj props => forallb (fun kv => exact (snd kv)) props
  | _ => true
  end.

End Js.

Import Js.

(* ===================================================================== *)
(** ** The rule-based scorer of [POST /predict] *)
(* ===================================================================== *)
Module Scoring.

Local Open Scope float_scope.

(** The four [if] statements over [score] and [reasoning], in the order
    of the source; [reasoning.push] appends. *)
Definition rules (period radius distance temperature : float)
  : float * list string :=
  let score := 0 in
  let reasoning := @nil string in
  let '(score, reasoning) :=
    if (200 <=? period) && (period <=? 500)
    then (score + 0.3, reasoning ++ ["Favorable orbital period"%string])
    else (score, reasoning) in
  let '(score, reasoning) :=
    if (0.5 <=? radius) && (radius <=? 2.0)
    then (score + 0.3, reasoning ++ ["Earth-like size"%string])
    else (score, reasoning) in
  let '(score, reasoning) :=
    if (0.8 <=? distance) && (distance <=? 1.5)
    then (score + 0.25, reasoning ++ ["In habitable zone"%string])
    else (score, reasoning) in
  let '(score, reasoning) :=
    if (273 <=? temperature) && (temperature <=? 373)
    then (score + 0.15, reasoning ++ ["Temperature allows liquid water"%string])
    else (score, reasoning) in
  (score, reasoning).

(** [confidence >= 0.5 ? 'CONFIRMED' : 'FALSE POSITIVE']. *)
Definition verdict (confidence : float) : string :=
  if 0.5 <=? confidence then "CONFIRMED"%string else "FALSE POSITIVE"%string.

(** What the handler computes from the four numbers before it touches
    the statistics. *)
Record Scored := {
  confidence : float;       (* Math.min(score, 1.0) *)
  prediction : string;
  reasoning : string        (* reasoning.join(', ') *)
}.

(** From [score] and [reasoning] after the four rules to the three
    values: the clamp, the threshold and the join. *)
Definition conclude (score : float) (reasoning : list string) : Scored :=
  let confidence := Math_min score 1.0 in
  {| confidence := confidence;
     prediction := verdict confidence;
     reasoning := join ", " reasoning |}.

Definition score (period radius distance temperature : float) : Scored :=
  let '(score, reasoning) := rules period radius distance temperature in
  conclude score reasoning.

(** [Math.round(confidence*100)/100], the confidence of the response and
    of the history entry. *)
Definition round2 (confidence : float) : float :=
  Math_round (confidence * 100) / 100.

(** The table of section 4.2 of the specification, read as data: the
    range check of a row, its weight and its text.  [column] says which of
    the four features the row looks at. *)
Record Row := {
  column : nat;
  low : float;
  high : float;
  weight : float;
  percent : N;
  text : string
}.

Definition table : list Row :=
  [ {| column := 0; low := 200; high := 500; weight := 0.30; percent := 30;
       text := "Favorable orbital period" |};
    {| column := 1; low := 0.5; high := 2.0; weight := 0.30; percent := 30;
       text := "Earth-like size" |};
    {| column := 2; low := 0.8; high := 1.5; weight := 0.25; percent := 25;
       text := "In habitable zone" |};
    {| column := 3; low := 273; high := 373; weight := 0.15; percent := 15;
       text := "Temperature allows liquid water" |} ].

(** A row is satisfied by a feature vector when the feature of its column
    lies in the inclusive range. *)
Definition satisfied (features : list float) (r : Row) : bool :=
  match features !! column r with
  | Some x => (low r <=? x) && (x <=? high r)
  | None => false
  end.

(** The specification's confidence: the weights of the satisfied rows
    added up in table order, kept at most 1.0. *)
Definition spec_confidence (features : list float) : float :=
  let sum := List.fold_left (fun acc r => acc + weight r)
               (List.filter (satisfied features) table) 0 in
  if 1.0 <? sum then 1.0 else sum.

(** The specification's reasoning: the texts of the satisfied rows, in
    table order, separated by a comma and a space. *)
Definition spec_reasoning (features : list float) : string :=
  join ", " (List.map text (List.filter (satisfied features) table)).

(** The weights of the satisfied rows in hundredths, added exactly. *)
Definition spec_percent (features : list float) : N :=
  List.fold_left (fun acc r => (acc + percent r)%N)
    (List.filter (satisfied features) table) 0%N.

(** [n / 100] as the server's numbers have it: the binary64 value nearest
    to the decimal fraction. *)
Definition hundredths (n : N) : float :=
  PrimFloat.of_uint63 (Uint63.of_Z (Z.of_N n)) / 100.

End Scoring.

(* ===================================================================== *)
(** ** The statistics record, [loadStats] and [saveStats] *)
(* ===================================================================== *)
Module StatsStore.

(** What [total_confidence] holds: a number; [null], once a file that has
    [null] there was loaded; a string, once [+=] has added a confidence
    that is a string, an array or an object. *)
Inductive Total :=
| TNull
| TNum (x : float)
| TStr (s : string).

(** [modelStats].  The entries of [prediction_history] are the object
    literals the handlers build. *)
Record Stats := {
  model_type : string;
  training_samples : N;
  features_count : N;
  last_updated : string;
  total_predictions : N;
  confirmed_predictions : N;
  rejected_predictions : N;
  total_confidence : Total;
  prediction_history : list json;
  start_time : string;
  api_calls_today : N;
  last_reset : string
}.

(** What [new Date()] gives at some instant. *)
Record Clock := {
  toISOString : string;
  toDateString : string
}.

(** The object literal [modelStats] is initialised with. *)
Definition initialStats (now : Clock) : Stats :=
  {| model_type := "Random Forest Classifier";
     training_samples := 9564;
     features_count := 4;
     last_updated := before_T (toISOString now);
     total_predictions := 0;
     confirmed_predictions := 0;
     rejected_predictions := 0;
     total_confidence := TNum PrimFloat.zero;
     prediction_history := [];
     start_time := toISOString now;
     api_calls_today := 0;
     last_reset := toDateString now |}.

(** The object [JSON.parse] gives for [model_stats.json]: each of the
    twelve properties is there or not, and has the type [saveStats] writes
    it with. *)
Record Saved := {
  s_model_type : option string;
  s_training_samples : option N;
  s_features_count : option N;
  s_last_updated : option string;
  s_total_predictions : option N;
  s_confirmed_predictions : option N;
  s_rejected_predictions : option N;
  s_total_confidence : option Total;
  s_prediction_history : option (list json);
  s_start_time : option string;
  s_api_calls_today : option N;
  s_last_reset : option string
}.

(** ToNumber of a [total_confidence] that is not a string: [null] counts
    as [+0]. *)
Definition total_number (total : Total) : float :=
  match total with
  | TNum x => x
  | _ => PrimFloat.zero
  end.

(** ToString of [total_confidence]. *)
Definition total_text (js : Builtins) (total : Total) : string :=
  match total with
  | TNull => "null"
  | TNum x => NumberToString js x
  | TStr s => s
  end.

(** [total_confidence += c] for a number [c]: the sum, or the
    concatenation when [total_confidence] is a string. *)
Definition add_confidence (js : Builtins) (total : Total) (c : float) : Total :=
  match total with
  | TStr s => TStr (s +:+ NumberToString js c)
  | _ => TNum (PrimFloat.add (total_number total) c)
  end.

(** [JSON.stringify] of [total_confidence], read back. *)
Definition wire_total (total : Total) : Total :=
  match total with
  | TNum x => match wire_number x with JNum y => TNum y | _ => TNull end
  | _ => total
  end.

(** [JSON.parse (JSON.stringify (modelStats, null, 2))]: the document
    [saveStats] writes and [res.json (modelStats)] sends. *)
Definition stringify (m : Stats) : Saved :=
  {| s_model_type := Some (model_type m);
     s_training_samples := Some (training_samples m);
     s_features_count := Some (features_count m);
     s_last_updated := Some (last_updated m);
     s_total_predictions := Some (total_predictions m);
     s_confirmed_predictions := Some (confirmed_predictions m);
     s_rejected_predictions := Some (rejected_predictions m);
     s_total_confidence := Some (wire_total (total_confidence m));
     s_prediction_history := Some (List.map wire (prediction_history m));
     s_start_time := Some (start_time m);
     s_api_calls_today := Some (api_calls_today m);
     s_last_reset := Some (last_reset m) |}.

(** The [if] of [loadStats]: [saved.last_reset !== new Date().toDateString()]
    (a missing [last_reset] is [undefined], which differs too). *)
Definition rollover (today : string) (saved : Saved) : Saved :=
  if bool_decide (s_last_reset saved = Some today) then saved
  else
    {| s_model_type := s_model_type saved;
       s_training_samples := s_training_samples saved;
       s_features_count := s_features_count saved;
       s_last_updated := s_last_updated saved;
       s_total_predictions := s_total_predictions saved;
       s_confirmed_predictions := s_confirmed_predictions saved;
       s_rejected_predictions := s_rejected_predictions saved;
       s_total_confidence := s_total_confidence saved;
       s_prediction_history := s_prediction_history saved;
       s_start_time := s_start_time saved;
       s_api_calls_today := Some 0%N;
       s_last_reset := Some today |}.

(** [{ ...modelStats, ...saved }]. *)
Definition merge (modelStats : Stats) (saved : Saved) : Stats :=
  {| model_type := default (model_type modelStats) (s_model_type saved);
     training_samples :=
       default (training_samples modelStats) (s_training_samples saved);
     features_count :=
       default (features_count modelStats) (s_features_count saved);
     last_updated := default (last_updated modelStats) (s_last_updated saved);
     total_predictions :=
       default (total_predictions modelStats) (s_total_predictions saved);
     confirmed_predictions :=
       default (confirmed_predictions modelStats)
         (s_confirmed_predictions saved);
     rejected_predictions :=
       default (rejected_predictions modelStats)
         (s_rejected_predictions saved);
     total_confidence :=
       default (total_confidence modelStats) (s_total_confidence saved);
     prediction_history :=
       default (prediction_history modelStats) (s_prediction_history saved);
     start_time := default (start_time modelStats) (s_start_time saved);
     api_calls_today :=
       default (api_calls_today modelStats) (s_api_calls_today saved);
     last_reset := default (last_reset modelStats) (s_last_reset saved) |}.

(** [loadStats].  [file] is [None] when [fs.readFile] or [JSON.parse]
    throws: the [catch] leaves [modelStats] as it is. *)
Definition loadStats (today : string) (file : option Saved)
    (modelStats : Stats) : Stats :=
  match file with
  | None => modelStats
  | Some saved => merge modelStats (rollover today saved)
  end.

(** [saveStats]: the file is overwritten in full; when [fs.writeFile]
    throws the error is logged and the file stays. *)
Definition saveStats (disk_ok : bool) (modelStats : Stats)
    (file : option Saved) : option Saved :=
  if disk_ok then Some (stringify modelStats) else file.

(** The field updates of the handlers. *)
Definition with_api_calls_today (n : N) (m : Stats) : Stats :=
  {| model_type := model_type m;
     training_samples := training_samples m;
     features_count := features_count m;
     last_updated := last_updated m;
     total_predictions := total_predictions m;
     confirmed_predictions := confirmed_predictions m;
     rejected_predictions := rejected_predictions m;
     total_confidence := total_confidence m;
     prediction_history := prediction_history m;
     start_time := start_time m;
     api_calls_today := n;
     last_reset := last_reset m |}.

Definition with_predictions (total confirmed rejected : N)
    (confidence : Total) (history : list json) (m : Stats) : Stats :=
  {| model_type := model_type m;
     training_samples := training_samples m;
     features_count := features_count m;
     last_updated := last_updated m;
     total_predictions := total;
     confirmed_predictions := confirmed;
     rejected_predictions := rejected;
     total_confidence := confidence;
     prediction_history := history;
     start_time := start_time m;
     api_calls_today := api_calls_today m;
     last_reset := last_reset m |}.

(** A record all of whose numbers [JSON.stringify] writes as they are. *)
Definition exact_stats (m : Stats) : bool :=
  match total_confidence m with
  | TNum x => exact_number x
  | _ => true
  end
  && forallb exact (prediction_history m).

End StatsStore.

(* ===================================================================== *)
(** ** The request handlers *)
(* ===================================================================== *)
Module Server.

Import StatsStore.

(** What a handler sends: [res.json], [res.send], and [res.json] of the
    statistics record. *)
Inductive Body :=
| Json (v : json)
| Text (s : string)
| StatsDoc (s : Saved).

Record Response := {
  status : N;
  body : Body
}.

(** A call to an upstream service. *)
Inductive Outbound :=
| TapQuery (query format : string)
| AiPost (payload : json).

(** The statistics record and the file after a request, the response, and
    the upstream calls the request made. *)
Record Outcome := {
  response : Response;
  stats : Stats;
  stored : option Saved;
  outbound : list Outbound
}.

(** A parameter of the query string as the query parser leaves it:
    absent, a string, or an array or object (a repeated or bracketed
    parameter), given with the text [String] makes of it. *)
Inductive Param :=
| Absent
| Str (s : string)
| Other (text : string).

(** ToBoolean of a parameter. *)
Definition param_truthy (p : Param) : bool :=
  match p with
  | Absent => false
  | Str s => negb (String.eqb s "")
  | Other _ => true
  end.

(** [p === s] for a string [s]. *)
Definition param_is (p : Param) (s : string) : bool :=
  match p with
  | Str s' => String.eqb s' s
  | _ => false
  end.

(** The text [URLSearchParams] sends for a parameter. *)
Definition param_text (p : Param) : string :=
  match p with
  | Absent => "undefined"
  | Str s => s
  | Other text => text
  end.

(** What happens upstream of [GET /tap/sync]: [import('node-fetch')]
    rejects and nothing is called; the call is made and [fetch] or
    [response.text()] rejects; or a response comes with its [ok] flag,
    status and text, and with what [JSON.parse] makes of the text ([None]
    when it throws). *)
Inductive TapOutcome :=
| TapNoFetch
| TapThrows
| TapResponse (ok : bool) (code : N) (text : string) (parsed : option json).

(** What the prediction service answers: [fetch] or [response.json()]
    rejects with a message, a status that is not ok, or a body, which is
    any JSON value. *)
Inductive AiOutcome :=
| AiThrows (message : string)
| AiNotOk (code : N)
| AiOk (data : json).

(** What a request reads from its surroundings: [new Date().toISOString()]
    and whether [fs.writeFile] succeeds. *)
Record Env := {
  now : string;
  disk_ok : bool
}.

Definition reply (code : N) (b : Body) (m : Stats) (f : option Saved)
    (calls : list Outbound) : Outcome :=
  {| response := {| status := code; body := b |};
     stats := m; stored := f; outbound := calls |}.

Definition error_body (message : string) : Body :=
  Json (JObj [("error", JStr message)]).

(** *** [GET /tap/sync] *)
Definition tap_sync (env : Env) (query format : Param)
    (up : TapOutcome) (modelStats : Stats) (file : option Saved) : Outcome :=
  let modelStats := with_api_calls_today (api_calls_today modelStats + 1) modelStats in
  let query := if param_truthy query then query else Str "" in
  let format := if param_truthy format then format else Str "json" in
  if negb (param_truthy query)
  then reply 400 (error_body "Missing query parameter") modelStats file []
  else
    let failed calls :=
      reply 500 (error_body "Failed to fetch TAP data") modelStats file calls in
    match query with
    | Str q =>
        let calls := [TapQuery q (param_text format)] in
        match up with
        | TapNoFetch => failed []
        | TapThrows => failed calls
        | TapResponse ok _ text parsed =>
            if negb ok then failed calls
            else
              let sent :=
                if param_is format "json"
                then match parsed with Some v => Json v | None => Text text end
                else Text text in
              reply 200 sent modelStats
                (saveStats (disk_ok env) modelStats file) calls
        end
    | _ => failed []     (* [query.substring] is not a function *)
    end.

(** *** [POST /predict] *)

(** [history.push(entry)] and the [slice(-100)] that follows. *)
Definition push_history (entry : json) (history : list json) : list json :=
  let history := history ++ [entry] in
  if (100 <? length history)%nat
  then drop (length history - 100) history
  else history.

(** The object pushed on [prediction_history] by [POST /predict]. *)
Definition predict_entry (features : json) (s : Scoring.Scored)
    (now : string) : json :=
  JObj [("features", features);
        ("prediction", JStr (Scoring.prediction s));
        ("confidence", JNum (Scoring.round2 (Scoring.confidence s)));
        ("timestamp", JStr now);
        ("reasoning", JStr (Scoring.reasoning s))].

Section WithBuiltins.

Variable js : Builtins.

(** Lines 115 to 125: the counters, the running sum and the history. *)
Definition record (features : json) (s : Scoring.Scored) (now : string)
    (modelStats : Stats) : Stats :=
  let confirmed :=
    if String.eqb (Scoring.prediction s) "CONFIRMED"
    then (confirmed_predictions modelStats + 1)%N
    else confirmed_predictions modelStats in
  let rejected :=
    if String.eqb (Scoring.prediction s) "CONFIRMED"
    then rejected_predictions modelStats
    else (rejected_predictions modelStats + 1)%N in
  with_predictions
    (total_predictions modelStats + 1) confirmed rejected
    (add_confidence js (total_confidence modelStats) (Scoring.confidence s))
    (push_history (predict_entry features s now)
       (prediction_history modelStats))
    modelStats.

(** [Number (v)]: ToNumber. *)
Definition Number (v : json) : option float :=
  match v with
  | JNull => Some PrimFloat.zero
  | JBool b => Some (if b then PrimFloat.one else PrimFloat.zero)
  | JNum x => Some x
  | _ => ToNumberText js v
  end.

(** [features.map(Number)], the destructuring into the four variables (a
    missing element is [undefined], which fails every comparison as [NaN]
    does) and the scoring.  [None] when a conversion throws. *)
Definition score_items (items : list json) : option Scoring.Scored :=
  numbers ← mapM Number items;
  let period := default PrimFloat.nan (numbers !! 0%nat) in
  let radius := default PrimFloat.nan (numbers !! 1%nat) in
  let distance := default PrimFloat.nan (numbers !! 2%nat) in
  let temperature := default PrimFloat.nan (numbers !! 3%nat) in
  Some (Scoring.score period radius distance temperature).

Definition predict (env : Env) (body : json)
    (modelStats : Stats) (file : option Saved) : Outcome :=
  let thrown :=
    reply 500 (error_body "Internal server error during prediction")
      modelStats file [] in
  match body with
  | JNull => thrown        (* destructuring [null] throws *)
  | _ =>
    let features := get body "features" in
    let items := match features with Some (JArr items) => items | _ => [] end in
    if negb (truthy features) || negb (isArray features)
       || negb (length items =? 4)%nat
    then reply 400 (error_body "Expected array of 4 numerical features.")
           modelStats file []
    else
      match score_items items with
      | None => thrown
      | Some s =>
          let modelStats := record (JArr items) s (now env) modelStats in
          reply 200
            (Json (JObj [("prediction", JStr (Scoring.prediction s));
                         ("confidence",
                          JNum (Scoring.round2 (Scoring.confidence s)));
                         ("reasoning", JStr (Scoring.reasoning s))]))
            modelStats (saveStats (disk_ok env) modelStats file) []
      end
  end.

(** *** [POST /ai/predict] *)

(** [history.unshift(entry)] and the [slice(0, 100)] that follows. *)
Definition unshift_history (entry : json) (history : list json) : list json :=
  let history := entry :: history in
  if (100 <? length history)%nat then take 100 history else history.

(** [total_confidence += c] for the [confidence] of an answer, any JSON
    value.  With a string on either side (a string, or an array or object
    after ToPrimitive) the two texts are concatenated; otherwise the two
    numbers are added, [null] and [false] as 0 and [true] as 1.  [None]
    when ToPrimitive throws. *)
Definition plus (total : Total) (c : json) : option Total :=
  match c with
  | JNull | JBool _ | JNum _ =>
      match total with
      | TStr s => (fun text => TStr (s +:+ text)) <$> ToString js c
      | _ => (fun x => TNum (PrimFloat.add (total_number total) x)) <$> Number c
      end
  | _ => (fun text => TStr (total_text js total +:+ text)) <$> ToString js c
  end.

(** [c > 0.5]: the comparison of ToNumber of [c] with 0.5.  [None] when
    the conversion throws. *)
Definition above_half (c : json) : option bool :=
  PrimFloat.ltb 0.5 <$> Number c.

(** [data.confidence || 0]. *)
Definition confidence_or_0 (c : option json) : json :=
  match c with
  | Some v => if truthy c then v else JNum PrimFloat.zero
  | None => JNum PrimFloat.zero
  end.

(** The object put in front of [prediction_history] by [POST /ai/predict]. *)
Definition ai_entry (input data : json) (now : string) : json :=
  JObj [("timestamp", JStr now);
        ("input", input);
        ("output", data);
        ("confidence", confidence_or_0 (get data "confidence"))].

(** Where the statements after [response.json()] end: they ran to the
    [unshift] and the [slice], or one of them threw and the [catch] took
    over, with the record as it was at the throw. *)
Inductive Handled :=
| Done (modelStats : Stats)
| Thrown (modelStats : Stats).

Definition after (h : Handled) : Stats :=
  match h with
  | Done m => m
  | Thrown m => m
  end.

(** Lines 286 to 311.  The two counters are incremented first.  Reading
    [data.confidence] throws when the answer is [null]; [+=] and [>] throw
    when the confidence cannot be converted. *)
Definition ai_record (input data : json) (now : string)
    (modelStats : Stats) : Handled :=
  let total := (total_predictions modelStats + 1)%N in
  let modelStats :=
    with_api_calls_today (api_calls_today modelStats + 1) modelStats in
  let counted sum confirmed rejected history :=
    with_predictions total confirmed rejected sum history modelStats in
  let unclassified sum :=
    counted sum (confirmed_predictions modelStats)
      (rejected_predictions modelStats) in
  let history :=
    unshift_history (ai_entry input data now) (prediction_history modelStats) in
  match data with
  | JNull => Thrown (unclassified (total_confidence modelStats)
                       (prediction_history modelStats))
  | _ =>
      match get data "confidence" with
      | None => Done (unclassified (total_confidence modelStats) history)
      | Some c =>
          match plus (total_confidence modelStats) c with
          | None => Thrown (unclassified (total_confidence modelStats)
                              (prediction_history modelStats))
          | Some sum =>
              match above_half c with
              | None => Thrown (unclassified sum (prediction_history modelStats))
              | Some true =>
                  Done (counted sum (confirmed_predictions modelStats + 1)%N
                          (rejected_predictions modelStats) history)
              | Some false =>
                  Done (counted sum (confirmed_predictions modelStats)
                          (rejected_predictions modelStats + 1)%N history)
              end
          end
      end
  end.

Definition ai_predict (env : Env) (body : json) (up : AiOutcome)
    (modelStats : Stats) (file : option Saved) : Outcome :=
  let calls := [AiPost (wire body)] in
  let failed details modelStats :=
    reply 500
      (Json (JObj [("error", JStr "AI prediction failed");
                   ("details", JStr details)]))
      modelStats file calls in
  match up with
  | AiThrows message => failed message modelStats
  | AiNotOk code =>
      failed ("AI API responded with status: " +:+ pretty code) modelStats
  | AiOk data =>
      match ai_record body data (now env) modelStats with
      | Thrown modelStats => failed (TypeErrorMessage js data) modelStats
      | Done modelStats =>
          reply 200 (Json data) modelStats
            (saveStats (disk_ok env) modelStats file) calls
      end
  end.

End WithBuiltins.

(** *** [GET /api/stats] *)
Definition api_stats (env : Env) (modelStats : Stats) (file : option Saved)
    : Outcome :=
  let modelStats := with_api_calls_today (api_calls_today modelStats + 1) modelStats in
  reply 200 (StatsDoc (stringify modelStats)) modelStats
    (saveStats (disk_ok env) modelStats file) [].

(** *** The server as a machine over requests *)
Inductive Request :=
| TapSync (query format : Param) (up : TapOutcome)
| Predict (body : json)
| AiPredict (body : json) (up : AiOutcome)
| ApiStats.

Definition handle (js : Builtins) (env : Env)
    (r : Request) (modelStats : Stats) (file : option Saved) : Outcome :=
  match r with
  | TapSync query format up => tap_sync env query format up modelStats file
  | Predict body => predict js env body modelStats file
  | AiPredict body up => ai_predict js env body up modelStats file
  | ApiStats => api_stats env modelStats file
  end.

(** The requests of a process, one after the other. *)
Fixpoint run (js : Builtins)
    (requests : list (Env * Request)) (modelStats : Stats)
    (file : option Saved) : Stats * option Saved :=
  match requests with
  | [] => (modelStats, file)
  | (env, r) :: rest =>
      let o := handle js env r modelStats file in
      run js rest (stats o) (stored o)
  end.

(** Whether the statements of [POST /ai/predict] on an answer throw:
    the answer is [null], or its [confidence] cannot be converted. *)
Definition ai_throws (js : Builtins) (data : json) : bool :=
  match data with
  | JNull => true
  | _ =>
      match get data "confidence" with
      | None => false
      | Some c =>
          negb (bool_decide (is_Some (ToString js c)))
          || negb (bool_decide (is_Some (Number js c)))
      end
  end.

(** The entry a request adds to [prediction_history], when it records a
    prediction: a body with four features that convert to numbers on
    [POST /predict], an answer on [POST /ai/predict] on which the handler
    does not throw. *)
Definition entry_of (js : Builtins) (env : Env)
    (r : Request) : option json :=
  match r with
  | Predict body =>
      match get body "features" with
      | Some (JArr items) =>
          if (length items =? 4)%nat
          then (fun s => predict_entry (JArr items) s (now env))
                 <$> score_items js items
          else None
      | _ => None
      end
  | AiPredict body (AiOk data) =>
      if ai_throws js data then None else Some (ai_entry body data (now env))
  | _ => None
  end.

(** The entries recorded by the requests of a process, in the order of the
    requests. *)
Definition recorded (js : Builtins)
    (requests : list (Env * Request)) : list json :=
  omap (fun er => entry_of js (fst er) (snd er)) requests.

(** A [POST /ai/predict] whose upstream answers ok: the route that
    counts and, unless the handler throws on the answer, records at the
    front of the history. *)
Definition unshifts (r : Request) : bool :=
  match r with
  | AiPredict _ (AiOk _) => true
  | _ => false
  end.

(** A request that records through [POST /predict]. *)
Definition pushes (js : Builtins) (r : Request) : bool :=
  match r with
  | Predict body =>
      match get body "features" with
      | Some (JArr items) =>
          (length items =? 4)%nat
          && bool_decide (is_Some (score_items js items))
      | _ => false
      end
  | _ => false
  end.

(** A request that adds to [total_predictions]: one that records through
    [POST /predict], and every [POST /ai/predict] whose upstream answers
    ok, whether or not the handler then throws on the answer. *)
Definition totals (js : Builtins) (r : Request) : bool :=
  pushes js r || unshifts r.

(** A [POST /ai/predict] whose upstream answers ok and which adds to
    neither [confirmed_predictions] nor [rejected_predictions]: the answer
    has no [confidence], or the handler throws on it. *)
Definition unclassified (js : Builtins) (r : Request) : bool :=
  match r with
  | AiPredict _ (AiOk data) =>
      ai_throws js data || bool_decide (get data "confidence" = None)
  | _ => false
  end.

(** The condition of the specification on the body of [POST /predict]:
    [features] is there, is an array, and has four elements. *)
Definition well_formed (body : json) : bool :=
  match get body "features" with
  | Some (JArr [_; _; _; _]) => true
  | _ => false
  end.

End Server.

(* ===================================================================== *)
(** ** Concrete runs *)
(* ===================================================================== *)
Module Scenario.

Import StatsStore Server.
Local Open Scope float_scope.

Definition monday : Clock :=
  {| toISOString := "2024-01-01T09:00:00.000Z";
     toDateString := "Mon Jan 01 2024" |}.

Definition tuesday : Clock :=
  {| toISOString := "2024-01-02T09:00:00.000Z";
     toDateString := "Tue Jan 02 2024" |}.

Definition at_ (instant : string) : Env :=
  {| now := instant; disk_ok := true |}.

(** No string, array or object is converted in the runs below. *)
Definition no_text : Builtins :=
  {| ToNumberText := fun _ => None;
     ToStringText := fun _ => None;
     NumberToString := fun _ => "";
     TypeErrorMessage := fun _ => "" |}.

Definition features_body (p r d t : float) : json :=
  JObj [("features", JArr [JNum p; JNum r; JNum d; JNum t])].

(** A process started on Monday that has answered five [GET /api/stats]
    and is still running on Tuesday. *)
Definition since_monday : Stats :=
  fst (run no_text (replicate 5 (at_ "2024-01-01T10:00:00.000Z", ApiStats))
         (initialStats monday) None).

(** [POST /predict] with the body [{"features": [1e999, 1, 1, 300]}], whose
    first number [JSON.parse] reads as [Infinity], on a process started on
    Tuesday. *)
Definition after_infinite_feature : Outcome :=
  predict no_text (at_ "2024-01-02T10:00:00.000Z")
    (features_body PrimFloat.infinity 1 1 300) (initialStats tuesday) None.

(** An answer of the prediction service without [confidence]. *)
Definition no_confidence : json :=
  JObj [("label", JStr "candidate")].

(** An answer of the prediction service with a [confidence]. *)
Definition confident : json :=
  JObj [("confidence", JNum 0.9)].

(** One hundred and one recorded predictions: two [POST /predict], then
    ninety-nine [POST /ai/predict]. *)
Definition mixed_requests : list (Env * Request) :=
  (at_ "t1", Predict (features_body 300 1 1 300))
  :: (at_ "t2", Predict (features_body 1000 5 10 1000))
  :: replicate 99 (at_ "t3", AiPredict (JObj []) (AiOk confident)).

(** One hundred and one [POST /predict], the first at ["t1"]. *)
Definition rule_requests : list (Env * Request) :=
  (at_ "t1", Predict (features_body 300 1 1 300))
  :: replicate 100 (at_ "t3", Predict (features_body 1000 5 10 1000)).

(** One hundred and one [POST /ai/predict], the first at ["t1"]. *)
Definition ai_requests : list (Env * Request) :=
  (at_ "t1", AiPredict (JObj []) (AiOk no_confidence))
  :: replicate 100 (at_ "t3", AiPredict (JObj []) (AiOk confident)).

End Scenario.

(* ===================================================================== *)
(** ** The life of a process *)
(* ===================================================================== *)
Module Process.

Import StatsStore Server.

(** [startServer]: the module has initialised [modelStats] with the clock
    of that instant ([boot]); [loadStats] then reads the day again
    ([loading]) before [app.listen] lets requests in. *)
Definition startServer (boot loading : Clock) (file : option Saved) : Stats :=
  loadStats (toDateString loading) file (initialStats boot).

(** The [SIGTERM] handler: [saveStats], then [process.exit(0)]. *)
Definition shutdown (disk_ok : bool) (modelStats : Stats)
    (file : option Saved) : option Saved :=
  saveStats disk_ok modelStats file.

(** From the start of a process to its [SIGTERM]: the record in memory at
    the end and the file left behind. *)
Definition life (js : Builtins) (boot loading : Clock)
    (requests : list (Env * Request)) (disk_at_exit : bool)
    (file : option Saved) : Stats * option Saved :=
  let served := run js requests (startServer boot loading file) file in
  (fst served, shutdown disk_at_exit (fst served) (snd served)).

(** The requests whose handler reaches an increment of [api_calls_today]:
    every [GET /tap/sync] and [GET /api/stats], and a [POST /ai/predict]
    whose upstream answers ok (whether or not the handler then throws on
    the answer). *)
Definition counted (r : Request) : bool :=
  match r with
  | TapSync _ _ _ => true
  | ApiStats => true
  | AiPredict _ (AiOk _) => true
  | _ => false
  end.

(** A record as a file that has fallen behind it can show it: an older
    [api_calls_today], [total_predictions] and [total_confidence], the
    rest as it is. *)
Definition behind (calls total : N) (sum : Total) (m : Stats) : Stats :=
  with_predictions total (confirmed_predictions m) (rejected_predictions m)
    sum (prediction_history m) (with_api_calls_today calls m).

(** At least two of three. *)
Definition two_of_three (a b c : bool) : bool :=
  (a && b) || (a && c) || (b && c).

(** A day of traffic on a process started on Monday: a proxied query, a
    query without [query], two predictions, a failed forward and a
    statistics request. *)
Definition monday_traffic : list (Env * Request) :=
  [ (Scenario.at_ "2024-01-01T10:00:00.000Z",
     TapSync (Str "select pl_name from ps") Absent
       (TapResponse true 200 "[]" (Some (JArr []))));
    (Scenario.at_ "2024-01-01T10:01:00.000Z", TapSync Absent Absent TapThrows);
    (Scenario.at_ "2024-01-01T10:02:00.000Z",
     Predict (Scenario.features_body 300 1 1 300));
    (Scenario.at_ "2024-01-01T10:03:00.000Z",
     AiPredict (JObj []) (AiOk Scenario.confident));
    (Scenario.at_ "2024-01-01T10:04:00.000Z",
     AiPredict (JObj []) (AiNotOk 503));
    (Scenario.at_ "2024-01-01T10:05:00.000Z", ApiStats) ].

End Process.

(* ===================================================================== *)
(** ** Facts about the built-ins *)
(* ===================================================================== *)
Module JsFacts.

(** Induction over a JSON tree, with the hypothesis for every item of an
    array and every property of an object. *)
Lemma json_tree_ind (P : json -> Prop) :
  P JNull ->
  (forall b, P (JBool b)) ->
  (forall x, P (JNum x)) ->
  (forall s, P (JStr s)) ->
  (forall items, Forall P items -> P (JArr items)) ->
  (forall props, Forall (fun kv => P (snd kv)) props -> P (JObj props)) ->
  forall v, P v.
Proof.
  intros Hnull Hbool Hnum Hstr Harr Hobj.
  fix IH 1.
  intros [ | b | x | s | items | props ].
  - exact Hnull.
  - apply Hbool.
  - apply Hnum.
  - apply Hstr.
  - apply Harr. induction items as [ | v items IHitems ]; constructor.
    + apply IH.
    + exact IHitems.
  - apply Hobj. induction props as [ | [k v] props IHprops ]; constructor.
    + apply IH.
    + exact IHprops.
Qed.

(** The only number classified as the positive zero is [+0]. *)
Lemma classify_PZero (x : float) :
  PrimFloat.classify x = PZero -> x = PrimFloat.zero.
Proof.
  rewrite classify_spec. intros H.
  apply Prim2SF_inj.
  unfold SF64classify, SFclassify in H.
  destruct (Prim2SF x) as [ [] | [] | | [] m e ];
    try discriminate; try reflexivity;
    match type of H with
    | context [if ?c then _ else _] => destruct c; discriminate
    end.
Qed.

Lemma wire_exact_number (x : float) :
  exact_number x = true -> wire_number x = JNum x.
Proof.
  unfold exact_number, wire_number.
  destruct (PrimFloat.classify x) eqn:Hc; try discriminate; intros _;
    try reflexivity.
  now rewrite (classify_PZero x Hc).
Qed.

(** A value whose numbers are all written as they are comes back from the
    file as it went. *)
Lemma wire_exact (v : json) : exact v = true -> wire v = v.
Proof.
  induction v as [ | b | x | s | items IH | props IH ] using json_tree_ind;
    cbn [exact wire]; intros H; try reflexivity.
  - now apply wire_exact_number.
  - f_equal. induction IH as [ | v items Hv _ IHitems ]; [ reflexivity | ].
    cbn in H |- *. apply andb_prop in H as [H1 H2].
    now rewrite Hv, IHitems.
  - f_equal. induction IH as [ | [k v] props Hv _ IHprops ]; [ reflexivity | ].
    cbn in H, Hv |- *. apply andb_prop in H as [H1 H2].
    now rewrite Hv, IHprops.
Qed.

Lemma wire_exact_list (l : list json) :
  forallb exact l = true -> List.map wire l = l.
Proof.
  induction l as [ | v l IH ]; cbn; [ reflexivity | ].
  intros H. apply andb_prop in H as [H1 H2].
  now rewrite wire_exact, IH.
Qed.

End JsFacts.

(* ===================================================================== *)
(** ** The scorer against the table of the specification *)
(* ===================================================================== *)
Module ScoringFacts.

Import Scoring.
Local Open Scope float_scope.

(** The four range checks are the only way the features enter the score:
    a goal about the scorer is settled by the sixteen outcomes of the
    checks. *)
Ltac by_rule_outcomes p r d t :=
  generalize ((200 <=? p) && (p <=? 500)) ((0.5 <=? r) && (r <=? 2.0))
             ((0.8 <=? d) && (d <=? 1.5)) ((273 <=? t) && (t <=? 373));
  intros [] [] [] []; vm_compute; auto.

Ltac unfold_table :=
  unfold score, rules, spec_confidence, spec_reasoning, spec_percent, table;
  cbn [List.filter satisfied column low high lookup list_lookup].

(** The code's three values are the ones the table of the specification
    gives. *)
Lemma score_matches_table (p r d t : float) :
  confidence (score p r d t) = spec_confidence [p; r; d; t]
  /\ prediction (score p r d t) =
     (if 0.5 <=? spec_confidence [p; r; d; t]
      then "CONFIRMED"%string else "FALSE POSITIVE"%string)
  /\ reasoning (score p r d t) = spec_reasoning [p; r; d; t].
Proof. unfold_table. by_rule_outcomes p r d t. Qed.

(** The confidence of the response, rounded to two decimals, is the exact
    sum of the satisfied weights, in hundredths. *)
Lemma round2_confidence_exact (p r d t : float) :
  round2 (confidence (score p r d t)) = hundredths (spec_percent [p; r; d; t]).
Proof. unfold_table. by_rule_outcomes p r d t. Qed.

(** The confidence lies between 0 and 1. *)
Lemma confidence_range (p r d t : float) :
  (0 <=? confidence (score p r d t)) = true
  /\ (confidence (score p r d t) <=? 1) = true.
Proof. unfold_table. by_rule_outcomes p r d t. Qed.

(** No feature vector scores exactly 0.5: the tie of the threshold is not
    reached by the rules. *)
Lemma score_never_ties (p r d t : float) :
  (confidence (score p r d t) =? 0.5) = false.
Proof. unfold_table. by_rule_outcomes p r d t. Qed.

(** The verdict is one of the two texts, and it is chosen by the threshold
    on the confidence. *)
Lemma prediction_threshold (p r d t : float) :
  prediction (score p r d t) =
    (if 0.5 <=? confidence (score p r d t)
     then "CONFIRMED"%string else "FALSE POSITIVE"%string).
Proof. unfold score. destruct (rules p r d t) as [s rs]. reflexivity. Qed.

(** The two scenarios of the specification. *)
Example all_rules_satisfied :
  score 300 1.0 1.0 300 =
    {| confidence := 1.0;
       prediction := "CONFIRMED";
       reasoning := "Favorable orbital period, Earth-like size, In habitable zone, Temperature allows liquid water" |}.
Proof. vm_compute. reflexivity. Qed.

Example no_rule_satisfied :
  score 1000 5 10 1000 =
    {| confidence := 0; prediction := "FALSE POSITIVE"; reasoning := "" |}.
Proof. vm_compute. reflexivity. Qed.

End ScoringFacts.

(* ===================================================================== *)
(** ** Loading and saving the statistics *)
(* ===================================================================== *)
Module StoreFacts.

Import StatsStore JsFacts.

(** A record is determined by its twelve fields. *)
Lemma stats_eta (m : Stats) :
  m = {| model_type := model_type m;
         training_samples := training_samples m;
         features_count := features_count m;
         last_updated := last_updated m;
         total_predictions := total_predictions m;
         confirmed_predictions := confirmed_predictions m;
         rejected_predictions := rejected_predictions m;
         total_confidence := total_confidence m;
         prediction_history := prediction_history m;
         start_time := start_time m;
         api_calls_today := api_calls_today m;
         last_reset := last_reset m |}.
Proof. now destruct m. Qed.

(** What was written is a whole record: merging it over any record gives
    the fields that were written. *)
Lemma merge_stringify (m r : Stats) :
  merge m (stringify r) =
    with_predictions (total_predictions r) (confirmed_predictions r)
      (rejected_predictions r) (wire_total (total_confidence r))
      (List.map wire (prediction_history r)) r.
Proof. reflexivity. Qed.

Lemma wire_total_exact (total : Total) :
  match total with TNum x => exact_number x | _ => true end = true ->
  wire_total total = total.
Proof.
  destruct total as [ | x | s ]; cbn; try reflexivity.
  intros H. now rewrite (wire_exact_number x H).
Qed.

(** Without a change of day, [rollover] keeps the parsed object. *)
Lemma rollover_same_day (today : string) (saved : Saved) :
  s_last_reset saved = Some today -> rollover today saved = saved.
Proof. intros H. unfold rollover. now rewrite bool_decide_eq_true_2. Qed.

Lemma rollover_new_day (today : string) (saved : Saved) :
  s_last_reset saved <> Some today ->
  s_api_calls_today (rollover today saved) = Some 0%N
  /\ s_last_reset (rollover today saved) = Some today.
Proof. intros H. unfold rollover. now rewrite bool_decide_eq_false_2. Qed.

(** C6. [loadStats] on a parsed file.  When the day text of the file is not
    today's (or the file has none), the record in memory gets
    [api_calls_today = 0] and [last_reset = today]; when it is today's,
    [last_reset] is the one of the file, and [api_calls_today] is the one of
    the file (the value in memory stays when the file has none). *)
Theorem loadStats_rollover (today : string) (saved : Saved) (m : Stats) :
  (s_last_reset saved <> Some today ->
     api_calls_today (loadStats today (Some saved) m) = 0%N
     /\ last_reset (loadStats today (Some saved) m) = today)
  /\ (s_last_reset saved = Some today ->
     Some (last_reset (loadStats today (Some saved) m)) = s_last_reset saved
     /\ api_calls_today (loadStats today (Some saved) m)
        = default (api_calls_today m) (s_api_calls_today saved)).
Proof.
  split; intros Hday; cbn [loadStats].
  - destruct (rollover_new_day today saved Hday) as [Hcalls Hreset].
    unfold merge; cbn. now rewrite Hcalls, Hreset.
  - rewrite (rollover_same_day today saved Hday).
    unfold merge; cbn. now rewrite Hday.
Qed.

(** The day-rollover scenario of the specification: a file written on
    Monday with five calls, loaded on Tuesday. *)
Example rollover_scenario :
  let loaded :=
    loadStats "Tue Jan 02 2024" (Some (stringify Scenario.since_monday))
      (initialStats Scenario.tuesday) in
  api_calls_today Scenario.since_monday = 5%N
  /\ api_calls_today loaded = 0%N
  /\ last_reset loaded = "Tue Jan 02 2024".
Proof. vm_compute. auto. Qed.

(** The same file loaded on Monday keeps its five calls. *)
Example same_day_scenario :
  let loaded :=
    loadStats "Mon Jan 01 2024" (Some (stringify Scenario.since_monday))
      (initialStats Scenario.monday) in
  api_calls_today loaded = 5%N /\ last_reset loaded = "Mon Jan 01 2024".
Proof. vm_compute. auto. Qed.

(** A missing or unreadable file leaves the record in memory. *)
Lemma loadStats_no_file (today : string) (m : Stats) :
  loadStats today None m = m.
Proof. reflexivity. Qed.

(** C5, as amended.  A record whose [last_reset] is the day of the load and
    whose numbers are all finite and not the negative zero comes back
    from [saveStats] followed by [loadStats] field for field, whatever
    record the loading process starts with. *)
Theorem save_load_identity (today : string) (r m : Stats) (file : option Saved) :
  last_reset r = today ->
  exact_stats r = true ->
  loadStats today (saveStats true r file) m = r.
Proof.
  intros Hday Hexact.
  apply andb_prop in Hexact as [Htotal Hhistory].
  cbn [saveStats loadStats].
  rewrite rollover_same_day by (cbn; now rewrite Hday).
  rewrite merge_stringify, wire_total_exact, wire_exact_list by assumption.
  symmetry. apply stats_eta.
Qed.

Lemma save_load_identity_witness :
  loadStats "Mon Jan 01 2024" (saveStats true Scenario.since_monday None)
    (initialStats Scenario.tuesday) = Scenario.since_monday.
Proof.
  apply (save_load_identity "Mon Jan 01 2024" Scenario.since_monday
           (initialStats Scenario.tuesday) None).
  - reflexivity.
  - vm_compute. reflexivity.
Defined.

(** C5, the claim as stated fails.  (1) A process started on Monday that is
    still running on Tuesday saves and is restarted on Tuesday: the load
    resets [api_calls_today] from 5 to 0 and moves [last_reset].  (2) A
    process started on Tuesday records a prediction whose first feature is
    [Infinity], saves, and is restarted the same day: [last_reset] is
    today's, and the history comes back with [null] for that feature. *)
Lemma save_load_counterexample :
  loadStats "Tue Jan 02 2024" (saveStats true Scenario.since_monday None)
    (initialStats Scenario.tuesday) <> Scenario.since_monday
  /\ last_reset (Server.stats Scenario.after_infinite_feature)
     = "Tue Jan 02 2024"
  /\ loadStats "Tue Jan 02 2024" (Server.stored Scenario.after_infinite_feature)
       (initialStats Scenario.tuesday)
     <> Server.stats Scenario.after_infinite_feature.
Proof.
  split; [ | split ].
  - intros H. apply (f_equal api_calls_today) in H.
    vm_compute in H. discriminate H.
  - reflexivity.
  - intros H. apply (f_equal prediction_history) in H.
    vm_compute in H. discriminate H.
Qed.

End StoreFacts.

(* ===================================================================== *)
(** ** The handlers *)
(* ===================================================================== *)
Module ServerFacts.

Import StatsStore Server.

(** [GET /tap/sync] by the shape of [query] and what happens upstream. *)
Lemma tap_sync_cases (env : Env) (query format : Param) (up : TapOutcome)
    (m : Stats) (f : option Saved) :
  tap_sync env query format up m f =
    let m' := with_api_calls_today (api_calls_today m + 1) m in
    let fmt := if param_truthy format then format else Str "json" in
    let missing := reply 400 (error_body "Missing query parameter") m' f [] in
    let failed := reply 500 (error_body "Failed to fetch TAP data") m' f in
    match query with
    | Absent => missing
    | Str q =>
        if String.eqb q "" then missing
        else
          match up with
          | TapNoFetch => failed []
          | TapThrows => failed [TapQuery q (param_text fmt)]
          | TapResponse ok _ text parsed =>
              if ok
              then reply 200
                     (if param_is fmt "json"
                      then match parsed with
                           | Some v => Json v
                           | None => Text text
                           end
                      else Text text)
                     m' (saveStats (disk_ok env) m' f)
                     [TapQuery q (param_text fmt)]
              else failed [TapQuery q (param_text fmt)]
          end
    | Other _ => failed []
    end.
Proof.
  unfold tap_sync. destruct query as [ | q | text ]; cbn [param_truthy negb].
  - reflexivity.
  - destruct (String.eqb q "") eqn:Hq; cbn [negb param_truthy].
    + reflexivity.
    + rewrite Hq. cbn [negb]. destruct up as [ | | [] code text parsed ];
        reflexivity.
  - reflexivity.
Qed.

(** The paths through [GET /tap/sync]: the shape of [query] and the
    upstream answer. *)
Ltac tap_sync_paths :=
  rewrite ?tap_sync_cases; cbv zeta;
  repeat match goal with
         | |- context [match ?q with Absent => _ | Str _ => _ | Other _ => _ end] =>
             is_var q; destruct q
         | |- context [if String.eqb ?q "" then _ else _] =>
             destruct (String.eqb q "")
         | |- context [match ?u with
                       | TapNoFetch => _
                       | TapThrows => _
                       | TapResponse _ _ _ _ => _
                       end] =>
             is_var u; destruct u
         | |- context [if ?ok then reply _ _ _ _ _ else _] =>
             is_var ok; destruct ok
         end.

Section Handlers.

Variable js : Builtins.

Local Abbreviation predict := (predict js).
Local Abbreviation handle := (handle js).
Local Abbreviation run := (run js).
Local Abbreviation entry_of := (entry_of js).
Local Abbreviation recorded := (recorded js).
Local Abbreviation score_items := (score_items js).
Local Abbreviation pushes := (pushes js).
Local Abbreviation record := (record js).
Local Abbreviation add_confidence := (add_confidence js).
Local Abbreviation ai_record := (ai_record js).
Local Abbreviation ai_predict := (ai_predict js).
Local Abbreviation totals := (totals js).
Local Abbreviation unclassified := (unclassified js).

(** *** [POST /predict], case by case *)

(** The three tests of the handler are the condition of the
    specification. *)
Lemma validation_well_formed (body : json) :
  let features := get body "features" in
  let items := match features with Some (JArr items) => items | _ => [] end in
  negb (truthy features) || negb (isArray features)
  || negb (length items =? 4)%nat
  = negb (well_formed body).
Proof.
  unfold well_formed.
  destruct (get body "features") as [ [ | b | x | s | items | props ] | ];
    cbn; try reflexivity; try now rewrite orb_true_r.
  destruct items as [ | a [ | b [ | c [ | d [ | e items ] ] ] ] ]; reflexivity.
Qed.

Lemma well_formed_items (body : json) :
  well_formed body = true ->
  exists a b c d, get body "features" = Some (JArr [a; b; c; d]).
Proof.
  unfold well_formed.
  destruct (get body "features") as [ [ | | | | items | ] | ]; try discriminate.
  destruct items as [ | a [ | b [ | c [ | d [ | e items ] ] ] ] ];
    try discriminate.
  intros _. now exists a, b, c, d.
Qed.

(** A body that is not well formed is answered 400. *)
Lemma predict_rejects (env : Env) (body : json) (m : Stats) (f : option Saved) :
  well_formed body = false -> body <> JNull ->
  predict env body m f =
    reply 400 (error_body "Expected array of 4 numerical features.") m f [].
Proof.
  intros Hwf Hnull. unfold Server.predict.
  pose proof (validation_well_formed body) as Hv. cbv zeta in Hv.
  rewrite Hv, Hwf. cbn [negb].
  destruct body; try reflexivity. now destruct Hnull.
Qed.

(** A well-formed body is scored and recorded, unless a conversion
    throws. *)
Lemma predict_accepts (env : Env) (body : json) (items : list json)
    (m : Stats) (f : option Saved) :
  well_formed body = true ->
  get body "features" = Some (JArr items) ->
  predict env body m f =
    match score_items items with
    | None =>
        reply 500 (error_body "Internal server error during prediction") m f []
    | Some s =>
        reply 200
          (Json (JObj [("prediction", JStr (Scoring.prediction s));
                       ("confidence",
                        JNum (Scoring.round2 (Scoring.confidence s)));
                       ("reasoning", JStr (Scoring.reasoning s))]))
          (record (JArr items) s (now env) m)
          (saveStats (disk_ok env) (record (JArr items) s (now env) m) f) []
    end.
Proof.
  intros Hwf Hget. unfold Server.predict.
  pose proof (validation_well_formed body) as Hv. cbv zeta in Hv.
  rewrite Hv, Hwf, Hget. cbn [negb].
  destruct body; try reflexivity. discriminate Hget.
Qed.

(** Whatever the body, the handler leaves the statistics alone unless it
    records. *)
Lemma predict_stats (env : Env) (body : json) (m : Stats) (f : option Saved) :
  stats (predict env body m f) =
    match get body "features" with
    | Some (JArr items) =>
        if (length items =? 4)%nat
        then match score_items items with
             | Some s => record (JArr items) s (now env) m
             | None => m
             end
        else m
    | _ => m
    end.
Proof.
  destruct (well_formed body) eqn:Hwf.
  - destruct (well_formed_items body Hwf) as (a & b & c & d & Hget).
    rewrite (predict_accepts env body _ m f Hwf Hget), Hget. cbn [length Nat.eqb].
    now destruct (score_items [a; b; c; d]).
  - destruct body as [ | b | x | s | items | props ];
      try (rewrite predict_rejects by (assumption || discriminate); cbn;
           reflexivity).
    + reflexivity.
    + rewrite predict_rejects by (assumption || discriminate).
      unfold well_formed in Hwf. cbn [stats reply].
      destruct (get (JObj props) "features") as [ [ | | | | items | ] | ];
        try reflexivity.
      destruct items as [ | a [ | b [ | c [ | d [ | e items ] ] ] ] ];
        try reflexivity.
      discriminate Hwf.
Qed.

(** *** [POST /ai/predict] on an answer *)

Lemma plus_throws (total : Total) (c : json) :
  plus js total c = None <-> ToString js c = None.
Proof.
  unfold plus.
  destruct c as [ | b | x | s | items | props ].
  1-3: destruct total; cbn; split; intros Hn; discriminate Hn.
  - cbn. split; intros Hn; discriminate Hn.
  - cbn [ToString]. destruct (ToStringText js (JArr items)); cbn; split;
      intros Hn; (reflexivity || discriminate Hn).
  - cbn [ToString]. destruct (ToStringText js (JObj props)); cbn; split;
      intros Hn; (reflexivity || discriminate Hn).
Qed.

Lemma above_half_throws (c : json) :
  above_half js c = None <-> Number js c = None.
Proof.
  unfold above_half. destruct (Number js c); cbn; split;
    intros Hn; (reflexivity || discriminate Hn).
Qed.

(** The statements after [response.json()], in one: the two counters
    are incremented whatever follows; when nothing throws the entry is put
    in front of the history and, if the answer has a [confidence], one of
    the two other counters is incremented; when something throws the
    history and the two other counters are as they were. *)
Lemma ai_record_cases (input data : json) (now : string) (m : Stats) :
  exists (sum : Total) (dc dr : N),
    let m' h :=
      with_predictions (total_predictions m + 1)
        (confirmed_predictions m + dc) (rejected_predictions m + dr) sum h
        (with_api_calls_today (api_calls_today m + 1) m) in
    if ai_throws js data
    then ai_record input data now m = Thrown (m' (prediction_history m))
         /\ dc = 0%N /\ dr = 0%N
    else ai_record input data now m
           = Done (m' (unshift_history (ai_entry input data now)
                         (prediction_history m)))
         /\ (dc + dr)%N
            = (if bool_decide (get data "confidence" = None) then 0 else 1)%N.
Proof.
  assert (Hz : forall n : N, (n + 0)%N = n) by (intros n; lia).
  unfold Server.ai_record, ai_throws.
  destruct data as [ | b | x | s | items | props ];
    try (exists (total_confidence m), 0%N, 0%N; cbn; rewrite !Hz; now split_and!).
  cbn [get]. destruct (assoc "confidence" props) as [ c | ] eqn:Hc.
  - rewrite (bool_decide_eq_false_2 (Some c = None)) by discriminate.
    cbn [total_confidence with_api_calls_today prediction_history
         confirmed_predictions rejected_predictions].
    destruct (plus js (total_confidence m) c) as [ sum | ] eqn:Hplus.
    + assert (Htext : is_Some (ToString js c)).
      { destruct (ToString js c) eqn:Ht; [ eauto | ].
        apply (plus_throws (total_confidence m)) in Ht. congruence. }
      rewrite (bool_decide_eq_true_2 _ Htext). cbn [negb orb].
      destruct (above_half js c) as [ [] | ] eqn:Hhalf.
      * assert (Hnum : is_Some (Number js c)).
        { destruct (Number js c) eqn:Hn; [ eauto | ].
          apply above_half_throws in Hn. congruence. }
        rewrite (bool_decide_eq_true_2 _ Hnum). cbn [negb].
        exists sum, 1%N, 0%N. cbv zeta. rewrite !Hz. now split.
      * assert (Hnum : is_Some (Number js c)).
        { destruct (Number js c) eqn:Hn; [ eauto | ].
          apply above_half_throws in Hn. congruence. }
        rewrite (bool_decide_eq_true_2 _ Hnum). cbn [negb].
        exists sum, 0%N, 1%N. cbv zeta. rewrite !Hz. now split.
      * apply above_half_throws in Hhalf.
        rewrite (bool_decide_eq_false_2 (is_Some (Number js c)))
          by (rewrite Hhalf; intros [? ?]; discriminate).
        cbn [negb]. exists sum, 0%N, 0%N. cbv zeta. rewrite !Hz. now split_and!.
    + apply plus_throws in Hplus.
      rewrite (bool_decide_eq_false_2 (is_Some (ToString js c)))
        by (rewrite Hplus; intros [? ?]; discriminate).
      cbn [negb orb].
      exists (total_confidence m), 0%N, 0%N. cbv zeta. rewrite !Hz.
      now split_and!.
  - rewrite (bool_decide_eq_true_2 (None = None)) by reflexivity.
    exists (total_confidence m), 0%N, 0%N. cbv zeta. rewrite !Hz. now split.
Qed.

(** [POST /ai/predict] on an ok answer, by whether a statement throws. *)
Lemma ai_predict_ok (env : Env) (body data : json) (m : Stats)
    (f : option Saved) :
  ai_predict env body (AiOk data) m f =
    match ai_record body data (now env) m with
    | Thrown m' =>
        reply 500
          (Json (JObj [("error", JStr "AI prediction failed");
                       ("details", JStr (TypeErrorMessage js data))]))
          m' f [AiPost (wire body)]
    | Done m' =>
        reply 200 (Json data) m' (saveStats (disk_ok env) m' f)
          [AiPost (wire body)]
    end.
Proof. reflexivity. Qed.

(** The cases of [ai_record_cases] for a goal about
    [ai_predict ... (AiOk data)]. *)
Ltac ai_record_paths input data now m :=
  rewrite ?ai_predict_ok;
  let sum := fresh "sum" in
  let dc := fresh "dc" in
  let dr := fresh "dr" in
  let Hrec := fresh "Hrec" in
  let Hd := fresh "Hd" in
  let Hd' := fresh "Hd" in
  destruct (ai_record_cases input data now m) as (sum & dc & dr & Hrec);
  cbv zeta in Hrec;
  destruct (ai_throws js data);
  [ destruct Hrec as (Hrec & Hd & Hd') | destruct Hrec as (Hrec & Hd) ];
  rewrite Hrec;
  cbn [stats stored response outbound reply status after
       prediction_history total_predictions confirmed_predictions
       rejected_predictions api_calls_today last_reset
       with_predictions with_api_calls_today].

(** *** One request *)

(** What a request does to the history: nothing, or its entry pushed at
    the end ([POST /predict]) or put in front ([POST /ai/predict]). *)
Lemma handle_history (env : Env) (r : Request) (m : Stats) (f : option Saved) :
  prediction_history (stats (handle env r m f)) =
    match entry_of env r with
    | None => prediction_history m
    | Some e =>
        if unshifts r then unshift_history e (prediction_history m)
        else push_history e (prediction_history m)
    end.
Proof.
  destruct r as [ query format up | body | body up | ]; cbn [Server.handle].
  - cbn [Server.entry_of]. tap_sync_paths; reflexivity.
  - rewrite predict_stats. cbn [Server.entry_of unshifts].
    destruct (get body "features") as [ [ | | | | items | ] | ]; try reflexivity.
    destruct (length items =? 4)%nat; [ | reflexivity ].
    now destruct (score_items items).
  - destruct up as [ message | code | data ]; try reflexivity.
    cbn [Server.entry_of unshifts].
    ai_record_paths body data (now env) m; reflexivity.
  - reflexivity.
Qed.

(** A [POST /predict] adds to the total exactly when it records. *)
Lemma pushes_entry_of (env : Env) (body : json) :
  pushes (Predict body) = bool_decide (is_Some (entry_of env (Predict body))).
Proof.
  cbn. destruct (get body "features") as [ [ | | | | items | ] | ];
    try reflexivity.
  destruct (length items =? 4)%nat; cbn; [ | reflexivity ].
  now destruct (score_items items).
Qed.

(** What a request does to the three counters. *)
Lemma handle_counters (env : Env) (r : Request) (m : Stats) (f : option Saved) :
  let m' := stats (handle env r m f) in
  let n := (if totals r then 1 else 0)%N in
  total_predictions m' = (total_predictions m + n)%N
  /\ (confirmed_predictions m' + rejected_predictions m'
      + (if unclassified r then 1 else 0)
      = confirmed_predictions m + rejected_predictions m + n)%N.
Proof.
  cbv zeta.
  destruct r as [ query format up | body | body up | ]; cbn [Server.handle].
  - unfold Server.totals. cbn [Server.pushes unshifts Server.unclassified orb].
    tap_sync_paths; cbn; lia.
  - unfold Server.totals. rewrite orb_false_r.
    rewrite predict_stats. cbn [Server.pushes Server.unclassified].
    destruct (get body "features") as [ [ | | | | items | ] | ]; try lia.
    destruct (length items =? 4)%nat; [ | cbn; lia ].
    destruct (score_items items) as [ s | ].
    + rewrite bool_decide_eq_true_2 by eauto. cbn.
      destruct (String.eqb (Scoring.prediction s) "CONFIRMED"); lia.
    + rewrite bool_decide_eq_false_2 by (intros [? ?]; discriminate). cbn. lia.
  - destruct up as [ message | code | data ]; try (cbn; lia).
    unfold Server.totals. cbn [Server.pushes unshifts Server.unclassified orb].
    ai_record_paths body data (now env) m.
    + cbn [orb]. lia.
    + cbn [orb]. destruct (bool_decide (get data "confidence" = None)); lia.
  - cbn. lia.
Qed.

(** No request lowers [api_calls_today]. *)
Lemma handle_api_calls (env : Env) (r : Request) (m : Stats) (f : option Saved) :
  (api_calls_today m <= api_calls_today (stats (handle env r m f)))%N.
Proof.
  destruct r as [ query format up | body | body up | ]; cbn [Server.handle].
  - tap_sync_paths; cbn; lia.
  - rewrite predict_stats.
    destruct (get body "features") as [ [ | | | | items | ] | ]; try lia.
    destruct (length items =? 4)%nat; [ | lia ].
    destruct (score_items items) as [ s | ]; [ cbn | ]; lia.
  - destruct up as [ message | code | data ]; cbn; try lia.
    ai_record_paths body data (now env) m; lia.
  - cbn. lia.
Qed.

(** No request touches [last_reset]: the day is compared by [loadStats]
    alone. *)
Lemma handle_last_reset (env : Env) (r : Request) (m : Stats) (f : option Saved) :
  last_reset (stats (handle env r m f)) = last_reset m.
Proof.
  destruct r as [ query format up | body | body up | ]; cbn [Server.handle].
  - tap_sync_paths; reflexivity.
  - rewrite predict_stats.
    destruct (get body "features") as [ [ | | | | items | ] | ]; try reflexivity.
    destruct (length items =? 4)%nat; [ | reflexivity ].
    now destruct (score_items items).
  - destruct up as [ message | code | data ]; try reflexivity.
    ai_record_paths body data (now env) m; reflexivity.
  - reflexivity.
Qed.

(** *** A run of requests *)

Lemma run_app (reqs1 reqs2 : list (Env * Request)) (m : Stats) (f : option Saved) :
  run (reqs1 ++ reqs2) m f =
    run reqs2 (fst (run reqs1 m f)) (snd (run reqs1 m f)).
Proof.
  revert m f. induction reqs1 as [ | [env r] reqs1 IH ]; intros m f.
  - reflexivity.
  - cbn [app Server.run]. apply IH.
Qed.

Lemma run_snoc (reqs : list (Env * Request)) (env : Env) (r : Request)
    (m : Stats) (f : option Saved) :
  fst (run (reqs ++ [(env, r)]) m f) =
    stats (handle env r (fst (run reqs m f)) (snd (run reqs m f))).
Proof. now rewrite run_app. Qed.

Lemma recorded_app (reqs1 reqs2 : list (Env * Request)) :
  recorded (reqs1 ++ reqs2) = recorded reqs1 ++ recorded reqs2.
Proof. apply omap_app. Qed.

Lemma recorded_cons (env : Env) (r : Request) (reqs : list (Env * Request)) :
  recorded ((env, r) :: reqs) =
    match entry_of env r with
    | Some e => e :: recorded reqs
    | None => recorded reqs
    end.
Proof. reflexivity. Qed.

Lemma run_api_calls (reqs : list (Env * Request)) (m : Stats) (f : option Saved) :
  (api_calls_today m <= api_calls_today (fst (run reqs m f)))%N.
Proof.
  revert m f. induction reqs as [ | [env r] reqs IH ]; intros m f.
  - cbn. lia.
  - cbn [Server.run]. etransitivity; [ apply (handle_api_calls env r m f) | apply IH ].
Qed.

Lemma run_last_reset (reqs : list (Env * Request)) (m : Stats) (f : option Saved) :
  last_reset (fst (run reqs m f)) = last_reset m.
Proof.
  revert m f. induction reqs as [ | [env r] reqs IH ]; intros m f.
  - reflexivity.
  - cbn [Server.run]. rewrite IH. apply handle_last_reset.
Qed.

(** *** The history as a bounded list *)

Lemma push_history_drop (e : json) (h : list json) :
  push_history e h = drop (length (h ++ [e]) - 100) (h ++ [e]).
Proof.
  unfold push_history. destruct (100 <? length (h ++ [e]))%nat eqn:Hlen.
  - reflexivity.
  - apply Nat.ltb_ge in Hlen.
    now replace (length (h ++ [e]) - 100)%nat with 0%nat by lia.
Qed.

Lemma unshift_history_take (e : json) (h : list json) :
  unshift_history e h = take 100 (e :: h).
Proof.
  unfold unshift_history. destruct (100 <? length (e :: h))%nat eqn:Hlen.
  - reflexivity.
  - apply Nat.ltb_ge in Hlen. now rewrite take_ge.
Qed.

Lemma push_history_length (e : json) (h : list json) :
  length h <= 100 -> length (push_history e h) <= 100.
Proof.
  intros Hh. rewrite push_history_drop, length_drop, length_app. cbn. lia.
Qed.

Lemma unshift_history_length (e : json) (h : list json) :
  length (unshift_history e h) <= 100.
Proof. rewrite unshift_history_take, length_take. lia. Qed.

Lemma push_history_last (e : json) (h : list json) :
  last (push_history e h) = Some e.
Proof.
  rewrite push_history_drop, drop_app_le by (rewrite length_app; cbn; lia).
  apply last_snoc.
Qed.

Lemma unshift_history_head (e : json) (h : list json) :
  head (unshift_history e h) = Some e.
Proof. now rewrite unshift_history_take. Qed.

(** Pushing on the last hundred of a list gives the last hundred of the
    longer list. *)
Lemma push_history_window (e : json) (l : list json) :
  push_history e (drop (length l - 100) l) =
    drop (length (l ++ [e]) - 100) (l ++ [e]).
Proof.
  rewrite push_history_drop.
  rewrite <- (drop_app_le l [e] (length l - 100)) by lia.
  rewrite drop_drop. f_equal.
  rewrite length_drop, !length_app. cbn. lia.
Qed.

(** Putting in front of the first hundred of a list gives the first
    hundred of the longer list. *)
Lemma unshift_history_window (e : json) (l : list json) :
  unshift_history e (take 100 l) = take 100 (e :: l).
Proof.
  rewrite unshift_history_take.
  change (take 100 (e :: take 100 l)) with (e :: take 99 (take 100 l)).
  now rewrite take_take.
Qed.

Lemma handle_history_length (env : Env) (r : Request) (m : Stats)
    (f : option Saved) :
  length (prediction_history m) <= 100 ->
  length (prediction_history (stats (handle env r m f))) <= 100.
Proof.
  intros Hm. rewrite handle_history.
  destruct (entry_of env r) as [ e | ]; [ | exact Hm ].
  destruct (unshifts r).
  - apply unshift_history_length.
  - now apply push_history_length.
Qed.

Lemma run_history_length (reqs : list (Env * Request)) (m : Stats)
    (f : option Saved) :
  length (prediction_history m) <= 100 ->
  length (prediction_history (fst (run reqs m f))) <= 100.
Proof.
  revert m f. induction reqs as [ | [env r] reqs IH ]; intros m f Hm.
  - exact Hm.
  - cbn [Server.run]. apply IH. now apply handle_history_length.
Qed.

(** Which route a recording request takes does not depend on the clock. *)
Lemma entry_of_route (env : Env) (r : Request) (e : json) :
  entry_of env r = Some e -> unshifts r = negb (pushes r).
Proof.
  destruct r as [ query format up | body | body up | ]; cbn;
    try discriminate.
  - destruct (get body "features") as [ [ | | | | items | ] | ];
      try discriminate.
    destruct (length items =? 4)%nat; [ | discriminate ].
    destruct (score_items items) as [ s | ]; [ | discriminate ].
    intros _. now rewrite bool_decide_eq_true_2 by eauto.
  - now destruct up.
Qed.

(** Along [POST /predict] alone the history is the last hundred of what
    was recorded, oldest first. *)
Lemma run_history_pushes (reqs : list (Env * Request)) (m : Stats)
    (f : option Saved) :
  length (prediction_history m) <= 100 ->
  Forall (fun er => unshifts (snd er) = false) reqs ->
  prediction_history (fst (run reqs m f)) =
    drop (length (prediction_history m ++ recorded reqs) - 100)
         (prediction_history m ++ recorded reqs).
Proof.
  intros Hm. induction reqs as [ | [env r] reqs IH ] using rev_ind; intros Hall.
  - cbn. rewrite app_nil_r.
    now replace (length (prediction_history m) - 100)%nat with 0%nat by lia.
  - apply Forall_app in Hall as [Hreqs Hr].
    apply Forall_cons_1 in Hr as [Hr _]. cbn [snd] in Hr.
    rewrite run_snoc, handle_history, (IH Hreqs), recorded_app, recorded_cons.
    rewrite Hr. destruct (entry_of env r) as [ e | ]; cbn [Server.recorded omap].
    + rewrite push_history_window. now rewrite <- app_assoc.
    + now rewrite app_nil_r.
Qed.

(** Along [POST /ai/predict] alone the history is the first hundred of
    what was recorded, newest first. *)
Lemma run_history_unshifts (reqs : list (Env * Request)) (m : Stats)
    (f : option Saved) :
  length (prediction_history m) <= 100 ->
  Forall (fun er => pushes (snd er) = false) reqs ->
  prediction_history (fst (run reqs m f)) =
    take 100 (rev (recorded reqs) ++ prediction_history m).
Proof.
  intros Hm. induction reqs as [ | [env r] reqs IH ] using rev_ind; intros Hall.
  - cbn. now rewrite take_ge.
  - apply Forall_app in Hall as [Hreqs Hr].
    apply Forall_cons_1 in Hr as [Hr _]. cbn [snd] in Hr.
    rewrite run_snoc, handle_history, (IH Hreqs), recorded_app, recorded_cons.
    destruct (entry_of env r) as [ e | ] eqn:He.
    + rewrite (entry_of_route env r e He), Hr. cbn [negb].
      rewrite unshift_history_window, rev_app_distr. reflexivity.
    + now rewrite app_nil_r.
Qed.

(** *** The claims on the handlers *)

(** A request that records an entry adds to the total. *)
Lemma entry_of_totals (env : Env) (r : Request) (e : json) :
  entry_of env r = Some e -> totals r = true.
Proof.
  destruct r as [ query format up | body | body up | ]; try discriminate.
  - intros He. unfold Server.totals. rewrite (pushes_entry_of env), He.
    now rewrite bool_decide_eq_true_2 by eauto.
  - destruct up; try discriminate. intros _. unfold Server.totals.
    apply orb_true_r.
Qed.

(** C1, as amended.  Over any requests, from any record: a
    [POST /predict] that records, and a [POST /ai/predict] whose upstream
    answers ok, each add one to [total_predictions]; they add one to
    [confirmed_predictions] or to [rejected_predictions] too, unless the
    answer of [POST /ai/predict] has no [confidence] or the handler throws
    on it (a [null] answer, a [confidence] that cannot be converted), in
    which case only the total grows.  So [confirmed + rejected <= total];
    the equality is kept by [POST /predict] and by the answers whose
    [confidence] is there and can be used; and from the initial record
    the total is the number of such requests, of which the recorded
    entries are a part. *)
Theorem prediction_counters (reqs : list (Env * Request)) (m : Stats)
    (f : option Saved) :
  let m' := fst (run reqs m f) in
  let n := N.of_nat (length (List.filter (fun er => totals (snd er)) reqs)) in
  let u := N.of_nat (length (List.filter (fun er => unclassified (snd er)) reqs)) in
  total_predictions m' = (total_predictions m + n)%N
  /\ (confirmed_predictions m' + rejected_predictions m' + u
      = confirmed_predictions m + rejected_predictions m + n)%N
  /\ (u = 0%N ->
      total_predictions m
        = (confirmed_predictions m + rejected_predictions m)%N ->
      total_predictions m'
        = (confirmed_predictions m' + rejected_predictions m')%N)
  /\ (forall clock, m = initialStats clock ->
      total_predictions m' = n
      /\ (confirmed_predictions m' + rejected_predictions m' + u = n)%N)
  /\ (N.of_nat (length (recorded reqs)) <= n)%N.
Proof.
  cbv zeta.
  assert (Hrun :
    total_predictions (fst (run reqs m f))
      = (total_predictions m
         + N.of_nat (length (List.filter (fun er => totals (snd er)) reqs)))%N
    /\ (confirmed_predictions (fst (run reqs m f))
        + rejected_predictions (fst (run reqs m f))
        + N.of_nat (length (List.filter (fun er => unclassified (snd er)) reqs))
        = confirmed_predictions m + rejected_predictions m
          + N.of_nat (length (List.filter (fun er => totals (snd er)) reqs)))%N).
  { revert m f. induction reqs as [ | [env r] reqs IH ]; intros m f.
    - cbn. lia.
    - cbn [Server.run List.filter snd].
      destruct (IH (stats (handle env r m f)) (stored (handle env r m f)))
        as [IHt IHc].
      destruct (handle_counters env r m f) as [Ht Hc]. cbv zeta in Ht, Hc.
      rewrite IHt, Ht.
      destruct (totals r), (unclassified r); cbn [length] in *; lia. }
  assert (Hrec : (N.of_nat (length (recorded reqs))
                  <= N.of_nat (length (List.filter
                                         (fun er => totals (snd er)) reqs)))%N).
  { clear Hrun. induction reqs as [ | [env r] reqs IH ]; [ cbn; lia | ].
    rewrite recorded_cons. cbn [List.filter snd].
    destruct (entry_of env r) as [ e | ] eqn:He.
    - rewrite (entry_of_totals env r e He). cbn [length]. lia.
    - destruct (totals r); cbn [length]; lia. }
  destruct Hrun as [Ht Hc].
  split_and!; try assumption.
  - intros Hu Hm. lia.
  - intros clock ->. cbn in Ht, Hc. now split.
Qed.

(** C2.  For every body whose [features] are four numbers, the handler's
    confidence is the sum of the weights of the satisfied rows of the
    table, added in table order and kept at most 1.0; the verdict is
    "CONFIRMED" exactly when that confidence is at least 0.5,
    "FALSE POSITIVE" otherwise; the reasoning is the satisfied texts joined
    by ", ".  The response carries the verdict, the reasoning and the
    confidence rounded to two decimals, which is the exact sum of the
    weights in hundredths; the confidence itself is what is added to
    [total_confidence]. *)
Theorem predict_scores_by_table (env : Env) (body : json) (p r d t : float)
    (m : Stats) (f : option Saved) :
  get body "features" = Some (JArr [JNum p; JNum r; JNum d; JNum t]) ->
  let features := [p; r; d; t] in
  let s := Scoring.score p r d t in
  let o := predict env body m f in
  Scoring.confidence s = Scoring.spec_confidence features
  /\ Scoring.prediction s =
     (if PrimFloat.leb 0.5 (Scoring.spec_confidence features)
      then "CONFIRMED" else "FALSE POSITIVE")
  /\ Scoring.reasoning s = Scoring.spec_reasoning features
  /\ response o =
     {| status := 200;
        body :=
          Json (JObj [("prediction", JStr (Scoring.prediction s));
                      ("confidence",
                       JNum (Scoring.hundredths (Scoring.spec_percent features)));
                      ("reasoning", JStr (Scoring.reasoning s))]) |}
  /\ total_confidence (stats o)
     = add_confidence (total_confidence m) (Scoring.confidence s).
Proof.
  intros Hget. cbv zeta.
  destruct (ScoringFacts.score_matches_table p r d t) as (Hc & Hp & Hr).
  assert (Hwf : well_formed body = true) by (unfold well_formed; now rewrite Hget).
  rewrite (predict_accepts env body _ m f Hwf Hget).
  cbn [Server.score_items mapM Server.Number mbind option_bind mret
       option_ret lookup list_lookup default response stats reply].
  split_and!; try assumption.
  - now rewrite ScoringFacts.round2_confidence_exact.
  - reflexivity.
Qed.

(** C3, as amended.  A missing or empty [query] on [GET /tap/sync] is
    answered 400 with a message, no call goes upstream and nothing is
    written, and [api_calls_today] is one more, the rest of the record as
    it was.  A body of [POST /predict] whose [features] is missing, is not
    an array or has not four elements is answered 400 with a message, and
    the record, the file and the upstream are left alone. *)
Theorem client_errors (env : Env) (m : Stats) (f : option Saved) :
  (forall query format up,
     query = Absent \/ query = Str "" ->
     tap_sync env query format up m f =
       reply 400 (error_body "Missing query parameter")
         (with_api_calls_today (api_calls_today m + 1) m) f [])
  /\ (forall body,
       well_formed body = false -> body <> JNull ->
       predict env body m f =
         reply 400 (error_body "Expected array of 4 numerical features.")
           m f []).
Proof.
  split.
  - intros query format up [-> | ->]; reflexivity.
  - intros body Hwf Hnull. now apply predict_rejects.
Qed.

(** C7.  [GET /api/stats] adds one to [api_calls_today], keeps the eleven
    other fields, and sends the record as it is after the increment. *)
Theorem api_stats_frame (env : Env) (m : Stats) (f : option Saved) :
  let o := api_stats env m f in
  api_calls_today (stats o) = (api_calls_today m + 1)%N
  /\ (model_type (stats o) = model_type m
      /\ training_samples (stats o) = training_samples m
      /\ features_count (stats o) = features_count m
      /\ last_updated (stats o) = last_updated m
      /\ start_time (stats o) = start_time m
      /\ last_reset (stats o) = last_reset m)
  /\ (total_predictions (stats o) = total_predictions m
      /\ confirmed_predictions (stats o) = confirmed_predictions m
      /\ rejected_predictions (stats o) = rejected_predictions m
      /\ total_confidence (stats o) = total_confidence m
      /\ prediction_history (stats o) = prediction_history m)
  /\ response o = {| status := 200; body := StatsDoc (stringify (stats o)) |}
  /\ outbound o = [].
Proof.
  cbv zeta. unfold api_stats, reply. cbn [stats response outbound].
  split_and!; reflexivity.
Qed.

(** C8.  Over the four kinds of requests [api_calls_today] never goes
    down: after any requests it is at least what it was after any prefix
    of them.  No request compares or changes [last_reset], so no request
    resets the counter; only [loadStats] does. *)
Theorem api_calls_monotone (reqs1 reqs2 : list (Env * Request)) (m : Stats)
    (f : option Saved) :
  (api_calls_today m <= api_calls_today (fst (run reqs1 m f)))%N
  /\ (api_calls_today (fst (run reqs1 m f))
      <= api_calls_today (fst (run (reqs1 ++ reqs2) m f)))%N
  /\ last_reset (fst (run (reqs1 ++ reqs2) m f)) = last_reset m.
Proof.
  split_and!.
  - apply run_api_calls.
  - rewrite run_app. apply run_api_calls.
  - apply run_last_reset.
Qed.

(** C9.  The response of [POST /predict] is a function of the body alone:
    two requests with the same body get the same verdict, confidence and
    reasoning whatever the statistics, the file, the clock and the disk
    are; and the handler calls nothing upstream. *)
Theorem predict_response_deterministic (env1 env2 : Env) (body : json)
    (m1 m2 : Stats) (f1 f2 : option Saved) :
  response (predict env1 body m1 f1) = response (predict env2 body m2 f2)
  /\ outbound (predict env1 body m1 f1) = []
  /\ forall s, score_items
         (match get body "features" with Some (JArr items) => items | _ => [] end)
       = Some s ->
     well_formed body = true ->
     response (predict env1 body m1 f1) =
       {| status := 200;
          body :=
            Json (JObj [("prediction", JStr (Scoring.prediction s));
                        ("confidence",
                         JNum (Scoring.round2 (Scoring.confidence s)));
                        ("reasoning", JStr (Scoring.reasoning s))]) |}.
Proof.
  destruct (well_formed body) eqn:Hwf.
  - destruct (well_formed_items body Hwf) as (a & b & c & d & Hget).
    rewrite !(predict_accepts _ body _ _ _ Hwf Hget), Hget.
    destruct (score_items [a; b; c; d]) as [ s | ]; split_and!;
      try reflexivity; intros s' Hs' _; now inversion Hs'.
  - split_and!; try discriminate.
    + destruct body; try reflexivity;
        now rewrite !predict_rejects by (assumption || discriminate).
    + destruct body; try reflexivity;
        now rewrite !predict_rejects by (assumption || discriminate).
Qed.


(** C4, as amended.  From a history of at most a hundred entries (the
    initial one is empty) the history never exceeds a hundred entries,
    whatever the requests.  The entry recorded last is always there: at the
    end after [POST /predict], in front after [POST /ai/predict].  When
    every recorded prediction came through [POST /predict] the history is
    the last hundred entries, oldest first, and when every one came through
    [POST /ai/predict] it is the first hundred, newest first: along one
    route the oldest entries are the ones dropped. *)
Theorem history_window (reqs : list (Env * Request)) (m : Stats)
    (f : option Saved) :
  length (prediction_history m) <= 100 ->
  let h' := prediction_history (fst (run reqs m f)) in
  length h' <= 100
  /\ (forall env r e,
       entry_of env r = Some e ->
       let h'' := prediction_history (fst (run (reqs ++ [(env, r)]) m f)) in
       if unshifts r then head h'' = Some e else last h'' = Some e)
  /\ (Forall (fun er => unshifts (snd er) = false) reqs ->
      h' = drop (length (prediction_history m ++ recorded reqs) - 100)
             (prediction_history m ++ recorded reqs))
  /\ (Forall (fun er => pushes (snd er) = false) reqs ->
      h' = take 100 (rev (recorded reqs) ++ prediction_history m)).
Proof.
  intros Hm. cbv zeta. split_and!.
  - now apply run_history_length.
  - intros env r e He. rewrite run_snoc, handle_history, He.
    destruct (unshifts r).
    + apply unshift_history_head.
    + apply push_history_last.
  - now apply run_history_pushes.
  - now apply run_history_unshifts.
Qed.

End Handlers.

(** *** Concrete runs *)

Import Scenario.

(** C1, the claim as stated fails: one answered [POST /ai/predict] whose
    answer has no [confidence], on the initial record, leaves
    [total_predictions] at 1 and the two other counters at 0. *)
Lemma counters_counterexample :
  let m' :=
    stats (ai_predict no_text (at_ "t1") (JObj []) (AiOk no_confidence)
             (initialStats monday) None) in
  total_predictions m' = 1%N
  /\ (confirmed_predictions m' + rejected_predictions m')%N = 0%N
  /\ total_predictions m'
     <> (confirmed_predictions m' + rejected_predictions m')%N.
Proof. cbv zeta. split_and!; [ reflexivity | reflexivity | discriminate ]. Qed.

(** The first scenario of the specification, through the handler. *)
Lemma predict_scores_by_table_witness :
  response (predict no_text (at_ "t1") (features_body 300 1 1 300)
              (initialStats monday) None) =
    {| status := 200;
       body :=
         Json (JObj [("prediction", JStr "CONFIRMED");
                     ("confidence", JNum 1);
                     ("reasoning",
                      JStr "Favorable orbital period, Earth-like size, In habitable zone, Temperature allows liquid water")]) |}.
Proof.
  destruct (predict_scores_by_table no_text (at_ "t1")
              (features_body 300 1 1 300) 300 1 1 300 (initialStats monday)
              None eq_refl)
    as (_ & _ & _ & Hresponse & _).
  exact Hresponse.
Defined.

(** Along [POST /predict] the three counters stay in step. *)
Example rule_requests_counters :
  let m' := fst (run no_text rule_requests (initialStats monday) None) in
  total_predictions m' = 101%N
  /\ confirmed_predictions m' = 1%N
  /\ rejected_predictions m' = 100%N.
Proof. vm_compute. auto. Qed.

(** C3, the claim as stated fails: [GET /tap/sync] without [query] is
    answered 400 and calls nothing upstream, but the record is not the same
    afterwards: [api_calls_today] went from 0 to 1. *)
Lemma missing_query_counterexample :
  let o := tap_sync (at_ "t1") Absent Absent TapThrows (initialStats monday) None in
  status (response o) = 400%N
  /\ outbound o = []
  /\ api_calls_today (initialStats monday) = 0%N
  /\ api_calls_today (stats o) = 1%N
  /\ stats o <> initialStats monday.
Proof.
  cbv zeta. split_and!; try reflexivity.
  intros H. apply (f_equal api_calls_today) in H. discriminate H.
Qed.

(** C4, the claim as stated fails.  Two [POST /predict], then ninety-nine
    [POST /ai/predict]: a hundred and one recorded predictions.  The entry
    recorded first is still in the history, at its end; the entry dropped
    is the second one, which [POST /predict] had pushed last and the
    [slice(0, 100)] of [POST /ai/predict] cuts off. *)
Lemma mixed_routes_counterexample :
  let h := prediction_history
             (fst (run no_text mixed_requests (initialStats monday) None)) in
  let first :=
    predict_entry (JArr [JNum 300; JNum 1; JNum 1; JNum 300])
      (Scoring.score 300 1 1 300) "t1" in
  let second :=
    predict_entry (JArr [JNum 1000; JNum 5; JNum 10; JNum 1000])
      (Scoring.score 1000 5 10 1000) "t2" in
  let later := ai_entry (JObj []) confident "t3" in
  recorded no_text mixed_requests = first :: second :: replicate 99 later
  /\ h = replicate 99 later ++ [first].
Proof. cbv zeta. split; vm_compute; reflexivity. Qed.

(** A hundred and one [POST /predict] from the initial record: the history
    holds a hundred entries, all but the entry recorded first. *)
Lemma history_window_witness :
  let h := prediction_history
             (fst (run no_text rule_requests (initialStats monday) None)) in
  length h <= 100
  /\ h = drop 1 (recorded no_text rule_requests)
  /\ last h = last (recorded no_text rule_requests).
Proof.
  cbv zeta.
  assert (Hm : length (prediction_history (initialStats monday)) <= 100)
    by (cbn; lia).
  destruct (history_window no_text rule_requests (initialStats monday) None Hm)
    as (Hlen & _ & Hpush & _).
  split_and!.
  - exact Hlen.
  - refine (eq_trans (Hpush _) _); [ | reflexivity ].
    constructor; [ reflexivity | ].
    apply Forall_replicate. reflexivity.
  - vm_compute. reflexivity.
Defined.

(** A hundred and one [POST /ai/predict] from the initial record: the
    history holds the hundred newest entries, newest first. *)
Example ai_requests_window :
  let h := prediction_history
             (fst (run no_text ai_requests (initialStats monday) None)) in
  length h = 100
  /\ h = take 100 (rev (recorded no_text ai_requests))
  /\ last (rev (recorded no_text ai_requests))
     = Some (ai_entry (JObj []) no_confidence "t1")
  /\ Forall (fun e => get e "timestamp" = Some (JStr "t3")) h.
Proof.
  cbv zeta. split_and!; try (vm_compute; reflexivity).
  apply Forall_forall. intros e He.
  assert (Hh : prediction_history
                 (fst (run no_text ai_requests (initialStats monday) None))
               = replicate 100 (ai_entry (JObj []) confident "t3"))
    by (vm_compute; reflexivity).
  rewrite Hh in He. apply elem_of_replicate in He as [-> _].
  reflexivity.
Qed.

(** The scenario of the specification for a missing [query]. *)
Example missing_query_scenario :
  tap_sync (at_ "t1") Absent (Str "csv") TapThrows (initialStats monday) None =
    reply 400 (error_body "Missing query parameter")
      (with_api_calls_today 1 (initialStats monday)) None [].
Proof. reflexivity. Qed.

End ServerFacts.

(* ===================================================================== *)
(** ** Further facts: the scorer, the file, the handlers, a process *)
(* ===================================================================== *)
Module MoreFacts.

Import StatsStore Server Process JsFacts.

(** *** The scorer *)

(** X1.  The verdict is "CONFIRMED" exactly when at least two of the
    checks on period, radius and distance hold; the temperature never
    changes it. *)
Theorem verdict_two_of_three (p r d t : float) :
  Scoring.prediction (Scoring.score p r d t) =
    if two_of_three
         (PrimFloat.leb 200 p && PrimFloat.leb p 500)
         (PrimFloat.leb 0.5 r && PrimFloat.leb r 2.0)
         (PrimFloat.leb 0.8 d && PrimFloat.leb d 1.5)
    then "CONFIRMED" else "FALSE POSITIVE".
Proof.
  unfold Scoring.score, Scoring.rules, two_of_three.
  generalize (PrimFloat.leb 200 p && PrimFloat.leb p 500)
             (PrimFloat.leb 0.5 r && PrimFloat.leb r 2.0)
             (PrimFloat.leb 0.8 d && PrimFloat.leb d 1.5)
             (PrimFloat.leb 273 t && PrimFloat.leb t 373).
  intros [] [] [] []; vm_compute; reflexivity.
Qed.

(** X2.  Whatever the four numbers are ([NaN] and the infinities too), the
    confidence and its two-decimal rounding lie between 0 and 1, and the
    confidence is never in the half-open range from 0.45 to 0.55 around
    the threshold. *)
Theorem confidence_unit_interval (p r d t : float) :
  let c := Scoring.confidence (Scoring.score p r d t) in
  PrimFloat.leb 0 c = true
  /\ PrimFloat.leb c 1 = true
  /\ PrimFloat.leb 0 (Scoring.round2 c) = true
  /\ PrimFloat.leb (Scoring.round2 c) 1 = true
  /\ (PrimFloat.leb c 0.45 || PrimFloat.leb 0.55 c) = true.
Proof.
  cbv zeta. unfold Scoring.score, Scoring.rules.
  generalize (PrimFloat.leb 200 p && PrimFloat.leb p 500)
             (PrimFloat.leb 0.5 r && PrimFloat.leb r 2.0)
             (PrimFloat.leb 0.8 d && PrimFloat.leb d 1.5)
             (PrimFloat.leb 273 t && PrimFloat.leb t 373).
  intros [] [] [] []; vm_compute; auto.
Qed.

(** *** What goes through the file *)

Lemma wire_number_exact (x : float) : exact (wire_number x) = true.
Proof.
  unfold wire_number.
  destruct (PrimFloat.classify x) eqn:Hc; try reflexivity;
    cbn [exact]; unfold exact_number; now rewrite Hc.
Qed.

Lemma wire_image_exact (v : json) : exact (wire v) = true.
Proof.
  induction v as [ | b | x | s | items IH | props IH ] using json_tree_ind;
    cbn [wire exact]; try reflexivity.
  - apply wire_number_exact.
  - induction IH as [ | v items Hv _ IHitems ]; [ reflexivity | ].
    cbn. now rewrite Hv, IHitems.
  - induction IH as [ | [k v] props Hv _ IHprops ]; [ reflexivity | ].
    cbn in Hv |- *. now rewrite Hv, IHprops.
Qed.

(** Every number of a value that went through [JSON.stringify] is
    written as it is, so a second pass changes nothing. *)
Theorem wire_idempotent (v : json) :
  exact (wire v) = true /\ wire (wire v) = wire v.
Proof.
  split; [ apply wire_image_exact | apply wire_exact, wire_image_exact ].
Qed.

Lemma wire_total_idempotent (total : Total) :
  wire_total (wire_total total) = wire_total total.
Proof.
  destruct total as [ | x | s ]; try reflexivity.
  unfold wire_total, wire_number.
  destruct (PrimFloat.classify x) eqn:Hc; try reflexivity; now rewrite Hc.
Qed.

Lemma wire_list_idempotent (l : list json) :
  List.map wire (List.map wire l) = List.map wire l.
Proof.
  induction l as [ | v l IH ]; [ reflexivity | ].
  cbn. now rewrite (wire_exact (wire v) (wire_image_exact v)), IH.
Qed.

(** X3.  What a process that loaded a file written by [saveStats] would
    write back is that file after the day check: the same file on the day
    it was written for, the file with [api_calls_today] at 0 and
    [last_reset] moved on another day.  Numbers that are not finite do not
    break this: they became [null] at the first write and stay so. *)
Theorem stringify_loadStats (today : string) (r m : Stats) :
  stringify (loadStats today (Some (stringify r)) m)
  = rollover today (stringify r).
Proof.
  cbn [loadStats]. unfold rollover.
  destruct (bool_decide (s_last_reset (stringify r) = Some today));
    unfold stringify, merge; cbn;
    now rewrite wire_total_idempotent, wire_list_idempotent.
Qed.

(** X4.  [loadStats] twice with the same file on the same day is
    [loadStats] once. *)
Theorem loadStats_idempotent (today : string) (file : option Saved) (m : Stats) :
  loadStats today file (loadStats today file m) = loadStats today file m.
Proof.
  destruct file as [ saved | ]; [ | reflexivity ].
  cbn [loadStats]. generalize (rollover today saved). intros s.
  destruct s as [ a b c d e f g h i j k l ].
  destruct a, b, c, d, e, f, g, h, i, j, k, l; reflexivity.
Qed.

(** *** Starting and stopping *)

(** X5.  When the day has not changed between the initialisation of the
    module and [loadStats], a process starts with [last_reset] at today,
    whatever the file holds and whether there is one; and
    [api_calls_today] starts at 0 unless the file is of today and has a
    count. *)
Theorem startServer_today (boot loading : Clock) (file : option Saved) :
  toDateString boot = toDateString loading ->
  let m := startServer boot loading file in
  last_reset m = toDateString loading
  /\ api_calls_today m =
     match file with
     | Some saved =>
         if bool_decide (s_last_reset saved = Some (toDateString loading))
         then default 0%N (s_api_calls_today saved)
         else 0%N
     | None => 0%N
     end.
Proof.
  intros Hday. cbv zeta. unfold startServer.
  destruct file as [ saved | ]; cbn [loadStats].
  - unfold rollover.
    destruct (bool_decide (s_last_reset saved = Some (toDateString loading)))
      eqn:Hsame.
    + apply bool_decide_eq_true_1 in Hsame.
      unfold merge; cbn. now rewrite Hsame.
    + now unfold merge; cbn.
  - now cbn.
Qed.

Lemma startServer_today_witness :
  let m := startServer Scenario.tuesday Scenario.tuesday
             (Some (stringify Scenario.since_monday)) in
  last_reset m = "Tue Jan 02 2024" /\ api_calls_today m = 0%N.
Proof.
  exact (startServer_today Scenario.tuesday Scenario.tuesday
           (Some (stringify Scenario.since_monday)) eq_refl).
Defined.

Lemma startServer_shutdown_total (boot loading : Clock) (r : Stats)
    (file : option Saved) :
  total_predictions (startServer boot loading (shutdown true r file))
  = total_predictions r.
Proof.
  unfold startServer, shutdown. cbn [saveStats loadStats]. unfold rollover.
  now destruct (bool_decide _).
Qed.

(** X6.  A [SIGTERM] whose write succeeds followed by a start, on any day:
    the three prediction counters, the static fields, [last_updated] and
    [start_time] are those of the process that stopped (so [start_time] is
    not the start of the new process), and the history is the one that
    stopped, as [JSON.stringify] wrote it.  Only [api_calls_today] and
    [last_reset] depend on the day. *)
Theorem restart_keeps (boot loading : Clock) (r : Stats) (file : option Saved) :
  let m := startServer boot loading (shutdown true r file) in
  (total_predictions m = total_predictions r
   /\ confirmed_predictions m = confirmed_predictions r
   /\ rejected_predictions m = rejected_predictions r)
  /\ (model_type m = model_type r
      /\ training_samples m = training_samples r
      /\ features_count m = features_count r)
  /\ (last_updated m = last_updated r /\ start_time m = start_time r)
  /\ prediction_history m = List.map wire (prediction_history r)
  /\ total_confidence m = wire_total (total_confidence r)
  /\ last_reset m = toDateString loading
  /\ api_calls_today m =
     (if bool_decide (last_reset r = toDateString loading)
      then api_calls_today r else 0%N).
Proof.
  cbv zeta. unfold startServer, shutdown. cbn [saveStats loadStats].
  unfold rollover. cbn [s_last_reset stringify].
  destruct (bool_decide (last_reset r = toDateString loading)) eqn:Hsame.
  - apply bool_decide_eq_true_1 in Hsame.
    rewrite bool_decide_eq_true_2 by now rewrite Hsame.
    unfold merge; cbn. now split_and!.
  - apply bool_decide_eq_false_1 in Hsame.
    rewrite bool_decide_eq_false_2 by (intros [= H]; now apply Hsame).
    unfold merge; cbn. now split_and!.
Qed.

(** *** The handlers *)

(** [GET /tap/sync] with a query that is a non-empty string. *)
Lemma tap_sync_with_query (env : Env) (q : string) (format : Param)
    (up : TapOutcome) (m : Stats) (f : option Saved) :
  q <> "" ->
  tap_sync env (Str q) format up m f =
    let m' := with_api_calls_today (api_calls_today m + 1) m in
    let fmt := match format with
               | Absent => "json"
               | Str s => if String.eqb s "" then "json" else s
               | Other text => text
               end in
    let failed := reply 500 (error_body "Failed to fetch TAP data") m' f in
    match up with
    | TapNoFetch => failed []
    | TapThrows => failed [TapQuery q fmt]
    | TapResponse ok _ text parsed =>
        if ok
        then reply 200
               (if match format with
                   | Absent => true
                   | Str s => String.eqb s "" || String.eqb s "json"
                   | Other _ => false
                   end
                then match parsed with Some v => Json v | None => Text text end
                else Text text)
               m' (saveStats (disk_ok env) m' f) [TapQuery q fmt]
        else failed [TapQuery q fmt]
    end.
Proof.
  intros Hq. apply String.eqb_neq in Hq.
  rewrite ServerFacts.tap_sync_cases. cbv zeta. rewrite Hq.
  destruct format as [ | s | text ]; cbn [param_truthy negb];
    [ | destruct (String.eqb s "") eqn:Hs; cbn [negb param_text param_is orb] | ];
    destruct up as [ | | [] code body parsed ]; try reflexivity.
Qed.

(** X7.  [GET /tap/sync] with a query whose upstream call throws or comes
    back not ok: the answer is 500 with the fixed message, one call went
    upstream with the query and the format (["json"] when none was given),
    nothing is written, and the call is counted all the same. *)
Theorem tap_sync_upstream_failure (env : Env) (q : string)
    (format : Param) (code : N) (text : string)
    (parsed : option json) (m : Stats) (f : option Saved) :
  q <> "" ->
  let fmt := match format with
             | Absent => "json"
             | Str s => if String.eqb s "" then "json" else s
             | Other text => text
             end in
  let failed :=
    reply 500 (error_body "Failed to fetch TAP data")
      (with_api_calls_today (api_calls_today m + 1) m) f [TapQuery q fmt] in
  tap_sync env (Str q) format TapThrows m f = failed
  /\ tap_sync env (Str q) format (TapResponse false code text parsed) m f
     = failed.
Proof.
  intros Hq. cbv zeta. now rewrite !tap_sync_with_query by assumption.
Qed.

(** X8.  [GET /tap/sync] answered ok by the upstream: with the format
    ["json"] (the default) a text that parses is sent as JSON and one
    that does not is sent as it came; with any other format the text is
    sent as it came.  The record, with the call counted, is then
    written. *)
Theorem tap_sync_success (env : Env) (q : string) (format : Param)
    (code : N) (text : string) (parsed : option json) (m : Stats)
    (f : option Saved) :
  q <> "" ->
  let o := tap_sync env (Str q) format (TapResponse true code text parsed) m f in
  let json_wanted :=
    match format with
    | Absent => true
    | Str s => String.eqb s "" || String.eqb s "json"
    | Other _ => false
    end in
  response o =
    {| status := 200;
       body := if json_wanted
               then match parsed with Some v => Json v | None => Text text end
               else Text text |}
  /\ stats o = with_api_calls_today (api_calls_today m + 1) m
  /\ stored o = saveStats (disk_ok env) (stats o) f.
Proof.
  intros Hq. cbv zeta. rewrite tap_sync_with_query by assumption.
  cbv zeta. cbn [response stats stored reply].
  now split_and!.
Qed.

(** [POST /ai/predict] whose upstream call throws or comes back not
    ok: the answer is 500 with the reason under [details], the body went
    upstream once, and neither the record nor the file is touched. *)
Theorem ai_predict_failure (js : Builtins) (env : Env) (body : json)
    (message : string) (code : N) (m : Stats) (f : option Saved) :
  ai_predict js env body (AiThrows message) m f =
    reply 500
      (Json (JObj [("error", JStr "AI prediction failed");
                   ("details", JStr message)]))
      m f [AiPost (wire body)]
  /\ ai_predict js env body (AiNotOk code) m f =
     reply 500
       (Json (JObj [("error", JStr "AI prediction failed");
                    ("details",
                     JStr ("AI API responded with status: " +:+ pretty code))]))
       m f [AiPost (wire body)].
Proof. split; reflexivity. Qed.

(** A path through a handler: the file goes with the status, and a status
    other than 200 comes with the record as the statement says. *)
Ltac outcome_case :=
  split;
  [ reflexivity
  | intros Hstatus;
    first [ reflexivity
          | exfalso; vm_compute in Hstatus; discriminate Hstatus
          | eexists; reflexivity ] ].

Section Handlers.

Variable js : Builtins.

Local Abbreviation predict := (Server.predict js).
Local Abbreviation ai_predict := (Server.ai_predict js).
Local Abbreviation handle := (Server.handle js).
Local Abbreviation run := (Server.run js).
Local Abbreviation recorded := (Server.recorded js).
Local Abbreviation entry_of := (Server.entry_of js).
Local Abbreviation totals := (Server.totals js).

(** One request, in full: whether it is answered 200 decides whether the
    file is written, and what a request that is not answered 200 does to
    the record. *)
Lemma handle_outcome (env : Env) (r : Request) (m : Stats) (f : option Saved) :
  let o := handle env r m f in
  stored o =
    (if (status (response o) =? 200)%N
     then saveStats (disk_ok env) (stats o) f else f)
  /\ ((status (response o) =? 200)%N = false ->
      match r with
      | TapSync _ _ _ =>
          stats o = with_api_calls_today (api_calls_today m + 1) m
      | AiPredict _ (AiOk _) =>
          exists sum,
            stats o = behind (api_calls_today m + 1) (total_predictions m + 1)
                        sum m
      | _ => stats o = m
      end).
Proof.
  cbv zeta.
  destruct r as [ query format up | body | body up | ]; cbn [Server.handle].
  - rewrite ServerFacts.tap_sync_cases. cbv zeta.
    destruct query as [ | q | text ];
      [ | destruct (String.eqb q "");
          [ | destruct up as [ | | [] code text parsed ] ] | ];
      cbn; outcome_case.
  - destruct (well_formed body) eqn:Hwf.
    + destruct (ServerFacts.well_formed_items body Hwf) as (a & b & c & d & Hget).
      rewrite (ServerFacts.predict_accepts js env body _ m f Hwf Hget).
      destruct (score_items js [a; b; c; d]); cbn;
        outcome_case.
    + destruct body;
        try (rewrite ServerFacts.predict_rejects by (assumption || discriminate));
        cbn; outcome_case.
  - destruct up as [ message | code | data ]; try (cbn; outcome_case).
    rewrite ServerFacts.ai_predict_ok.
    destruct (ServerFacts.ai_record_cases js body data (now env) m)
      as (sum & dc & dr & Hrec).
    cbv zeta in Hrec. destruct (ai_throws js data).
    + destruct Hrec as (Hrec & -> & ->). rewrite Hrec. cbn.
      split; [ reflexivity | intros _ ].
      exists sum. unfold behind. cbn. now rewrite !N.add_0_r.
    + destruct Hrec as (Hrec & _). rewrite Hrec. cbn. outcome_case.
  - cbn. outcome_case.
Qed.

(** X9.  A request that is not answered 200 has changed nothing in the
    record, with two exceptions: [GET /tap/sync] has counted the call, and
    a [POST /ai/predict] whose upstream answered ok and on whose answer
    the handler threw has incremented [total_predictions] and
    [api_calls_today] (and may have changed [total_confidence]), but
    neither the history nor the two other counters. *)
Theorem failed_request_frame (env : Env) (r : Request) (m : Stats)
    (f : option Saved) :
  status (response (handle env r m f)) <> 200%N ->
  match r with
  | TapSync _ _ _ =>
      stats (handle env r m f)
      = with_api_calls_today (api_calls_today m + 1) m
  | AiPredict _ (AiOk _) =>
      exists sum,
        stats (handle env r m f)
        = with_predictions (total_predictions m + 1)
            (confirmed_predictions m) (rejected_predictions m) sum
            (prediction_history m)
            (with_api_calls_today (api_calls_today m + 1) m)
  | _ => stats (handle env r m f) = m
  end.
Proof.
  intros Hstatus. apply N.eqb_neq in Hstatus.
  pose proof (proj2 (handle_outcome env r m f) Hstatus) as Hframe.
  destruct r as [ query format up | body | body [ | | data ] | ];
    exact Hframe.
Qed.

(** X10.  The file is written exactly by the requests answered 200 whose
    write succeeds, and what is written is the record as the request left
    it; every other request leaves the file as it was. *)
Theorem file_written_iff_ok (env : Env) (r : Request) (m : Stats)
    (f : option Saved) :
  let o := handle env r m f in
  stored o =
    if (status (response o) =? 200)%N && disk_ok env
    then Some (stringify (stats o)) else f.
Proof.
  cbv zeta. rewrite (proj1 (handle_outcome env r m f)).
  destruct (status (response (handle env r m f)) =? 200)%N; [ | reflexivity ].
  unfold saveStats. now destruct (disk_ok env).
Qed.

(** X11.  Neither the file nor the success of the write reaches the
    caller or the record in memory: the response, the record and the
    upstream calls of a request are the same whatever the disk does. *)
Theorem disk_never_surfaces (now : string) (disk1 disk2 : bool) (r : Request)
    (m : Stats) (f1 f2 : option Saved) :
  let o1 := handle {| now := now; disk_ok := disk1 |} r m f1 in
  let o2 := handle {| now := now; disk_ok := disk2 |} r m f2 in
  response o1 = response o2 /\ stats o1 = stats o2
  /\ outbound o1 = outbound o2.
Proof.
  cbv zeta.
  destruct r as [ query format up | body | body up | ]; cbn [Server.handle].
  - rewrite !ServerFacts.tap_sync_cases. cbv zeta.
    destruct query as [ | q | text ];
      [ | destruct (String.eqb q "");
          [ | destruct up as [ | | [] code text parsed ] ] | ];
      now split_and!.
  - destruct (well_formed body) eqn:Hwf.
    + destruct (ServerFacts.well_formed_items body Hwf) as (a & b & c & d & Hget).
      rewrite !(ServerFacts.predict_accepts js _ body _ m _ Hwf Hget).
      destruct (score_items js [a; b; c; d]); now split_and!.
    + destruct body;
        try (rewrite !ServerFacts.predict_rejects by (assumption || discriminate));
        now split_and!.
  - destruct up as [ message | code | data ]; try now split_and!.
    rewrite !ServerFacts.ai_predict_ok. cbn [Server.now].
    destruct (ai_record js body data now m); now split_and!.
  - now split_and!.
Qed.


(** X17.  [POST /predict] checks the shape of [features], not the type of
    its elements: a body with an array of four values, whatever they are,
    is never answered 400.  It is answered 200 when the four values
    convert to numbers ([null] and the booleans do, as 0 and 1) and 500
    when a conversion throws. *)
Theorem four_elements_never_400 (env : Env) (body : json) (m : Stats)
    (f : option Saved) :
  well_formed body = true ->
  let items := match get body "features" with
               | Some (JArr items) => items
               | _ => []
               end in
  status (response (predict env body m f)) =
    match score_items js items with
    | Some _ => 200%N
    | None => 500%N
    end
  /\ (Forall (fun v => match v with
                       | JNull | JBool _ | JNum _ => True
                       | _ => False
                       end) items ->
      status (response (predict env body m f)) = 200%N).
Proof.
  intros Hwf. cbv zeta.
  destruct (ServerFacts.well_formed_items body Hwf) as (a & b & c & d & Hget).
  rewrite (ServerFacts.predict_accepts js env body _ m f Hwf Hget), Hget.
  split.
  - now destruct (score_items js [a; b; c; d]).
  - intros Hprim.
    repeat match goal with
           | H : Forall _ (_ :: _) |- _ =>
               apply Forall_cons_1 in H; destruct H
           end.
    destruct a, b, c, d; try contradiction; reflexivity.
Qed.

(** X18.  A [POST /ai/predict] whose upstream answers ok with [null], or
    with a [confidence] that cannot be converted, is answered 500 after
    [total_predictions] and [api_calls_today] were incremented: the two
    counters keep the increment, no entry is added to the history,
    neither of the two other counters moves, and nothing is written. *)
Theorem ai_predict_throws_after_counting (env : Env) (body data : json)
    (m : Stats) (f : option Saved) :
  ai_throws js data = true ->
  let o := ai_predict env body (AiOk data) m f in
  response o =
    {| status := 500;
       body := Json (JObj [("error", JStr "AI prediction failed");
                           ("details", JStr (TypeErrorMessage js data))]) |}
  /\ total_predictions (stats o) = (total_predictions m + 1)%N
  /\ api_calls_today (stats o) = (api_calls_today m + 1)%N
  /\ confirmed_predictions (stats o) = confirmed_predictions m
  /\ rejected_predictions (stats o) = rejected_predictions m
  /\ prediction_history (stats o) = prediction_history m
  /\ stored o = f.
Proof.
  intros Hthrows. cbv zeta. rewrite ServerFacts.ai_predict_ok.
  destruct (ServerFacts.ai_record_cases js body data (now env) m)
    as (sum & dc & dr & Hrec).
  cbv zeta in Hrec. rewrite Hthrows in Hrec.
  destruct Hrec as (Hrec & -> & ->). rewrite Hrec. cbn.
  rewrite !N.add_0_r. now split_and!.
Qed.

(** What a request does to [api_calls_today]. *)
Lemma handle_counted (env : Env) (r : Request) (m : Stats) (f : option Saved) :
  api_calls_today (stats (handle env r m f)) =
    (api_calls_today m + if counted r then 1 else 0)%N.
Proof.
  destruct r as [ query format up | body | body up | ]; cbn [Server.handle counted].
  - rewrite ServerFacts.tap_sync_cases. cbv zeta.
    destruct query as [ | q | text ];
      [ | destruct (String.eqb q "");
          [ | destruct up as [ | | [] code text parsed ] ] | ];
      reflexivity.
  - rewrite ServerFacts.predict_stats.
    destruct (get body "features") as [ [ | | | | items | ] | ]; try lia.
    destruct (length items =? 4)%nat; [ | lia ].
    destruct (score_items js items); cbn; lia.
  - destruct up as [ message | code | data ]; try (cbn; lia).
    rewrite ServerFacts.ai_predict_ok.
    destruct (ServerFacts.ai_record_cases js body data (now env) m)
      as (sum & dc & dr & Hrec).
    cbv zeta in Hrec.
    destruct (ai_throws js data); destruct Hrec as (Hrec & _);
      rewrite Hrec; reflexivity.
  - reflexivity.
Qed.

(** X12.  [api_calls_today] after any requests is what it was plus the
    number of [GET /tap/sync] (answered or not, with a query or not), of
    [GET /api/stats] and of [POST /ai/predict] whose upstream answered ok,
    including those on whose answer the handler then threw and which were
    answered 500; [POST /predict] and a [POST /ai/predict] whose upstream
    call failed are never counted. *)
Theorem api_calls_exact (reqs : list (Env * Request)) (m : Stats)
    (f : option Saved) :
  api_calls_today (fst (run reqs m f)) =
    (api_calls_today m
     + N.of_nat (length (List.filter (fun er => counted (snd er)) reqs)))%N.
Proof.
  revert m f. induction reqs as [ | [env r] reqs IH ]; intros m f.
  - cbn. lia.
  - cbn [Server.run List.filter snd]. rewrite IH, handle_counted.
    destruct (counted r); cbn [length]; lia.
Qed.

Lemma behind_twice (j k s t : N) (a b : Total) (m : Stats) :
  behind k t b (behind j s a m) = behind k t b m.
Proof. reflexivity. Qed.

Lemma behind_calls (j k t : N) (b : Total) (m : Stats) :
  behind k t b (with_api_calls_today j m) = behind k t b m.
Proof. reflexivity. Qed.

Lemma behind_same (m : Stats) :
  behind (api_calls_today m) (total_predictions m) (total_confidence m) m = m.
Proof. now destruct m. Qed.

(** X13.  With a disk that takes every write, a file that agrees with the
    record keeps agreeing with it on the history, on
    [confirmed_predictions] and [rejected_predictions] and on every other
    field but three: after any requests the file is the record with an
    older (never a larger) [api_calls_today], an older (never a larger)
    [total_predictions] and an older [total_confidence].  No recorded
    prediction is missing from the file; what it can miss is calls counted
    by [GET /tap/sync] requests that failed, and what a
    [POST /ai/predict] counted before it threw on the answer. *)
Theorem file_lags_in_counts_only (reqs : list (Env * Request)) (m : Stats) :
  Forall (fun er => disk_ok (fst er) = true) reqs ->
  exists (k t : N) (sum : Total),
    (k <= api_calls_today (fst (run reqs m (Some (stringify m)))))%N
    /\ (t <= total_predictions (fst (run reqs m (Some (stringify m)))))%N
    /\ snd (run reqs m (Some (stringify m))) =
       Some (stringify
               (behind k t sum (fst (run reqs m (Some (stringify m)))))).
Proof.
  intros Hdisk.
  assert (Hgen : forall (k0 t0 : N) (sum0 : Total),
    (k0 <= api_calls_today m)%N ->
    (t0 <= total_predictions m)%N ->
    exists (k t : N) (sum : Total),
      (k <= api_calls_today
              (fst (run reqs m (Some (stringify (behind k0 t0 sum0 m))))))%N
      /\ (t <= total_predictions
                 (fst (run reqs m (Some (stringify (behind k0 t0 sum0 m))))))%N
      /\ snd (run reqs m (Some (stringify (behind k0 t0 sum0 m)))) =
         Some (stringify
                 (behind k t sum
                    (fst (run reqs m
                            (Some (stringify (behind k0 t0 sum0 m)))))))).
  { revert m. induction Hdisk as [ | [env r] reqs Hr _ IH ];
      intros m k0 t0 sum0 Hk0 Ht0.
    - exists k0, t0, sum0. now split_and!.
    - cbn [Server.run]. cbn [fst] in Hr.
      pose proof (handle_outcome env r m
                    (Some (stringify (behind k0 t0 sum0 m)))) as Hout.
      cbv zeta in Hout. destruct Hout as [Hstored Hframe].
      pose proof (handle_counted env r m
                    (Some (stringify (behind k0 t0 sum0 m)))) as Hcount.
      pose proof (proj1 (ServerFacts.handle_counters js env r m
                    (Some (stringify (behind k0 t0 sum0 m))))) as Htotal.
      cbv zeta in Htotal.
      set (o := handle env r m (Some (stringify (behind k0 t0 sum0 m)))) in *.
      destruct (status (response o) =? 200)%N eqn:Hstatus.
      + rewrite Hstored. unfold saveStats. rewrite Hr.
        replace (Some (stringify (stats o)))
          with (Some (stringify
                        (behind (api_calls_today (stats o))
                           (total_predictions (stats o))
                           (total_confidence (stats o)) (stats o))))
          by now rewrite behind_same.
        apply IH; lia.
      + rewrite Hstored.
        assert (Heq : behind k0 t0 sum0 m = behind k0 t0 sum0 (stats o)).
        { specialize (Hframe eq_refl).
          destruct r as [ query format up | body | body [ | | data ] | ];
            try (now rewrite Hframe).
          destruct Hframe as (sum & Hframe). now rewrite Hframe. }
        rewrite Heq. apply IH; lia. }
  pose proof (Hgen (api_calls_today m) (total_predictions m)
                (total_confidence m) ltac:(lia) ltac:(lia)) as Hm.
  now rewrite behind_same in Hm.
Qed.

Lemma push_history_length_exact (e : json) (h : list json) :
  length h <= 100 -> length (push_history e h) = Nat.min 100 (length h + 1).
Proof.
  intros Hh.
  rewrite ServerFacts.push_history_drop, length_drop, !length_app.
  cbn [length]. lia.
Qed.

Lemma unshift_history_length_exact (e : json) (h : list json) :
  length (unshift_history e h) = Nat.min 100 (length h + 1).
Proof.
  rewrite ServerFacts.unshift_history_take, length_take. cbn [length]. lia.
Qed.

(** X14.  From a history of at most a hundred entries, the history after
    any requests, through either route and in any order, holds as many
    entries as there were plus one for each recorded prediction, up to a
    hundred. *)
Theorem history_length_exact (reqs : list (Env * Request)) (m : Stats)
    (f : option Saved) :
  length (prediction_history m) <= 100 ->
  length (prediction_history (fst (run reqs m f))) =
    Nat.min 100 (length (prediction_history m) + length (recorded reqs)).
Proof.
  revert m f. induction reqs as [ | [env r] reqs IH ]; intros m f Hm.
  - cbn [Server.run Server.recorded omap list_omap length fst]. lia.
  - cbn [Server.run]. rewrite ServerFacts.recorded_cons.
    pose proof (ServerFacts.handle_history js env r m f) as Hh.
    rewrite IH by now apply ServerFacts.handle_history_length.
    rewrite Hh.
    destruct (Server.entry_of js env r) as [ e | ]; [ | reflexivity ].
    destruct (unshifts r).
    + rewrite unshift_history_length_exact. cbn [length]. lia.
    + rewrite push_history_length_exact by assumption. cbn [length]. lia.
Qed.

Lemma run_total (reqs : list (Env * Request)) (m : Stats) (f : option Saved) :
  total_predictions (fst (run reqs m f)) =
    (total_predictions m
     + N.of_nat (length (List.filter (fun er => totals (snd er)) reqs)))%N.
Proof.
  revert m f. induction reqs as [ | [env r] reqs IH ]; intros m f.
  - cbn. lia.
  - cbn [Server.run List.filter snd]. rewrite IH.
    destruct (ServerFacts.handle_counters js env r m f) as [Ht _].
    cbv zeta in Ht. rewrite Ht.
    destruct (totals r); cbn [length]; lia.
Qed.

(** X15.  Across a restart no count is lost: a process that served
    requests and whose [SIGTERM] write succeeded leaves a file from which
    the next process, on any day, starts with [total_predictions] equal
    to what the first process started with plus one for each
    [POST /predict] it recorded and one for each [POST /ai/predict] whose
    upstream answered ok, whether that answer was recorded or the handler
    threw on it. *)
Theorem restart_accumulates (boot1 loading1 boot2 loading2 : Clock)
    (reqs : list (Env * Request)) (file : option Saved) :
  let first := life js boot1 loading1 reqs true file in
  total_predictions (startServer boot2 loading2 (snd first)) =
    (total_predictions (startServer boot1 loading1 file)
     + N.of_nat (length (List.filter (fun er => totals (snd er)) reqs)))%N.
Proof.
  cbv zeta. unfold life. cbn [snd fst].
  rewrite startServer_shutdown_total. apply run_total.
Qed.

End Handlers.

(** *** Concrete runs *)

Import Scenario.

Lemma tap_sync_upstream_failure_witness :
  tap_sync (at_ "t1") (Str "select pl_name from ps") Absent TapThrows
    (initialStats monday) None =
    reply 500 (error_body "Failed to fetch TAP data")
      (with_api_calls_today 1 (initialStats monday)) None
      [TapQuery "select pl_name from ps" "json"].
Proof.
  assert (Hq : "select pl_name from ps" <> "") by discriminate.
  exact (proj1 (tap_sync_upstream_failure (at_ "t1") "select pl_name from ps"
                  Absent 0%N "" None (initialStats monday) None Hq)).
Defined.

Lemma tap_sync_success_witness :
  response (tap_sync (at_ "t1") (Str "select pl_name from ps") (Str "csv")
              (TapResponse true 200 "pl_name" None) (initialStats monday) None)
  = {| status := 200; body := Text "pl_name" |}.
Proof.
  assert (Hq : "select pl_name from ps" <> "") by discriminate.
  exact (proj1 (tap_sync_success (at_ "t1") "select pl_name from ps"
                  (Str "csv") 200%N "pl_name" None (initialStats monday)
                  None Hq)).
Defined.

Lemma failed_request_frame_witness :
  exists sum,
    stats (handle no_text (at_ "t1") (AiPredict (JObj []) (AiOk JNull))
             since_monday None)
    = with_predictions (total_predictions since_monday + 1)
        (confirmed_predictions since_monday)
        (rejected_predictions since_monday) sum
        (prediction_history since_monday)
        (with_api_calls_today (api_calls_today since_monday + 1) since_monday).
Proof.
  apply (failed_request_frame no_text (at_ "t1")
           (AiPredict (JObj []) (AiOk JNull)) since_monday None).
  discriminate.
Defined.

Lemma file_lags_in_counts_only_witness :
  exists (k t : N) (sum : Total),
    (k <= api_calls_today
            (fst (run no_text monday_traffic (initialStats monday)
                    (Some (stringify (initialStats monday))))))%N
    /\ (t <= total_predictions
               (fst (run no_text monday_traffic (initialStats monday)
                       (Some (stringify (initialStats monday))))))%N
    /\ snd (run no_text monday_traffic (initialStats monday)
              (Some (stringify (initialStats monday)))) =
       Some (stringify
               (behind k t sum
                  (fst (run no_text monday_traffic (initialStats monday)
                          (Some (stringify (initialStats monday))))))).
Proof.
  apply (file_lags_in_counts_only no_text monday_traffic (initialStats monday)).
  repeat constructor.
Defined.

Lemma four_elements_never_400_witness :
  status (response
            (predict no_text (at_ "t1")
               (JObj [("features", JArr [JNull; JBool true; JBool true; JNull])])
               (initialStats monday) None))
  = 200%N.
Proof.
  apply (four_elements_never_400 no_text (at_ "t1")
           (JObj [("features", JArr [JNull; JBool true; JBool true; JNull])])
           (initialStats monday) None eq_refl).
  repeat constructor.
Defined.

Lemma history_length_exact_witness :
  length (prediction_history
            (fst (run no_text mixed_requests (initialStats monday) None)))
  = Nat.min 100 (0 + length (recorded no_text mixed_requests)).
Proof.
  apply (history_length_exact no_text mixed_requests (initialStats monday) None).
  cbn. lia.
Defined.

Lemma ai_predict_throws_after_counting_witness :
  total_predictions
    (stats (ai_predict no_text (at_ "t1") (JObj []) (AiOk JNull)
              (initialStats monday) None)) = 1%N
  /\ prediction_history
       (stats (ai_predict no_text (at_ "t1") (JObj []) (AiOk JNull)
                 (initialStats monday) None)) = []
  /\ stored (ai_predict no_text (at_ "t1") (JObj []) (AiOk JNull)
               (initialStats monday) None) = None.
Proof.
  pose proof (ai_predict_throws_after_counting no_text (at_ "t1") (JObj [])
                JNull (initialStats monday) None eq_refl) as H.
  cbv zeta in H. destruct H as (_ & Ht & _ & _ & _ & Hh & Hs).
  split_and!; [ exact Ht | exact Hh | exact Hs ].
Defined.

(** The traffic of Monday: four calls counted out of six requests, two
    predictions recorded, and the file left by the last request agrees
    with the record. *)
Example monday_traffic_run :
  let end_of_day := run no_text monday_traffic (initialStats monday) None in
  api_calls_today (fst end_of_day) = 4%N
  /\ total_predictions (fst end_of_day) = 2%N
  /\ length (prediction_history (fst end_of_day)) = 2
  /\ snd end_of_day = Some (stringify (fst end_of_day)).
Proof. vm_compute. auto. Qed.

(** A forward whose upstream answers [null] is answered 500, counted as
    a prediction and as a call, and leaves no entry; a [GET /tap/sync]
    whose [query] is an array is answered 500 without a call upstream. *)
Example null_answer_run :
  let o := handle no_text (at_ "t1") (AiPredict (JObj []) (AiOk JNull))
             (initialStats monday) None in
  let q := handle no_text (at_ "t2")
             (TapSync (Other "a,b") Absent
                (TapResponse true 200 "[]" (Some (JArr []))))
             (initialStats monday) None in
  status (response o) = 500%N
  /\ total_predictions (stats o) = 1%N
  /\ api_calls_today (stats o) = 1%N
  /\ prediction_history (stats o) = []
  /\ stored o = None
  /\ status (response q) = 500%N
  /\ outbound q = []
  /\ api_calls_today (stats q) = 1%N.
Proof. vm_compute. now split_and!. Qed.

End MoreFacts.
